(** * Product CRUD service: the list query pipeline

    A shallow embedding of the Go sources

    - [internal/core/domain/product.go]            (module [domain])
    - [internal/adapters/http/dto]                 (module [dto])
    - [internal/core/ports]                        (module [ports])
    - [internal/adapters/repository/dynamodb.go]   (modules [sorting], [repository])
    - [internal/core/services/product_service.go]  (module [services])
    - [internal/adapters/http/product_handler.go]  (module [handler])

    together with the two libraries whose behaviour the list path relies
    on: the query binding of the HTTP framework (module [binding]) and
    the Scan operation of the key-value store (module [dynamodb]).

    Data is modelled as the code has it:
    - Go [int] values are [Z]; every arithmetic expression of the list
      path is evaluated on values bounded by the checks that precede it
      (page <= 1000, limit <= 100), far from the 64-bit wrap-around;
    - [float64] prices are exact rationals [Q]: the code only compares
      them and formats them with two decimals; the one [float64]
      computation, the quotient behind total_pages, is rounded as
      binary64 rounds it (module [float64]);
    - [time.Time] values (UTC, no monotonic reading) are [Z] nanoseconds;
    - Go slices are [list]s, indexed with stdpp's lookup and insert;
    - the three ways a Go call ends (value, error, panic) are the three
      constructors of [go]. *)

From Stdlib Require Import ZArith QArith Qround Qreduction String Ascii List Lia Lqa OrderedTypeEx.
From stdpp Require Import base list strings.

Open Scope string_scope.
Open Scope list_scope.

(** ** Results of Go calls *)

Inductive go (A : Type) : Type :=
| Return (a : A)
| Fail (err : string)
| Panic (msg : string).
Arguments Return {A} a.
Arguments Fail {A} err.
Arguments Panic {A} msg.

Definition go_bind {A B : Type} (m : go A) (k : A -> go B) : go B :=
  match m with
  | Return a => k a
  | Fail e => Fail e
  | Panic s => Panic s
  end.

Notation "'let*' x ':=' m 'in' k" := (go_bind m (fun x => k))
  (at level 10, x binder, m at level 200, k at level 200).

(** [fmt.Errorf("prefix: %w", err)] *)
Definition wrap (prefix : string) (err : string) : string :=
  prefix +:+ ": " +:+ err.

(** Strict comparison of rationals, the [<] of two finite [float64]. *)
Definition Qltb (x y : Q) : bool := negb (Qle_bool y x).

(** Go slice expressions [s[lo:]] and [s[:hi]].  An index outside
    [0 .. len(s)] is a run-time panic.  ([s[:hi]] is legal up to
    [cap(s)]; the code only evaluates it under [hi < len(s)].) *)
Definition slice_from {A : Type} (s : list A) (lo : Z) : go (list A) :=
  if ((0 <=? lo) && (lo <=? Z.of_nat (length s)))%Z
  then Return (drop (Z.to_nat lo) s)
  else Panic "slice bounds out of range".

Definition slice_to {A : Type} (s : list A) (hi : Z) : go (list A) :=
  if ((0 <=? hi) && (hi <=? Z.of_nat (length s)))%Z
  then Return (take (Z.to_nat hi) s)
  else Panic "slice bounds out of range".

(** The conversion [int32(x)] of a Go [int]. *)
Definition int32 (x : Z) : Z := ((x + 2 ^ 31) mod 2 ^ 32 - 2 ^ 31)%Z.

(** ** binary64 arithmetic

    The finite [float64] values of the one floating-point expression of
    the code, [int(math.Ceil(float64(a) / float64(b)))], as the
    rationals they denote.  The operands come from 64-bit integers, so
    a non-zero quotient has a magnitude between 2^-63 and 2^63: the
    exponent range of binary64 is never left, and a result is the
    rational rounded to 53 significant bits, a tie going to the even
    significand. *)

Module float64.

(** The integer nearest to [n / d], for [d > 0]; a tie goes to the
    even one. *)
Definition nearest_even (n d : Z) : Z :=
  let f := (n / d)%Z in
  match (2 * (n mod d) ?= d)%Z with
  | Lt => f
  | Gt => (f + 1)%Z
  | Eq => if Z.even f then f else (f + 1)%Z
  end.

(** The binary exponent of [n / d], for [n > 0] and [d > 0]: the [e]
    with [2^e <= n / d < 2^(e+1)]. *)
Definition exponent (n d : Z) : Z :=
  let e := (Z.log2 n - Z.log2 d)%Z in
  if (0 <=? e)%Z
  then (if (d * 2 ^ e <=? n)%Z then e else e - 1)%Z
  else (if (d <=? n * 2 ^ (- e))%Z then e else e - 1)%Z.

(** The binary64 nearest to [n / d], for [d > 0]: with [e] the exponent
    of the quotient, the multiple of [2^(e-52)] nearest to it. *)
Definition round (n d : Z) : Q :=
  if (n =? 0)%Z then 0%Q
  else
    let s := (52 - exponent (Z.abs n) d)%Z in
    Qred (if (0 <=? s)%Z
          then Qmake (nearest_even (n * 2 ^ s) d) (Z.to_pos (2 ^ s))
          else inject_Z (nearest_even n (d * 2 ^ (- s)) * 2 ^ (- s))).

(** The conversion [float64(z)] of a Go [int]. *)
Definition of_int (z : Z) : Q := round z 1.

(** [x / y].  A zero divisor gives an infinity or a NaN, which are not
    told apart here: [None]. *)
Definition div (x y : Q) : option Q :=
  match Qnum y with
  | Z0 => None
  | Zpos p => Some (round (Qnum x * Zpos (Qden y)) (Zpos (Qden x) * Zpos p))
  | Zneg p => Some (round (- Qnum x * Zpos (Qden y)) (Zpos (Qden x) * Zpos p))
  end.

(** [math.Ceil], which keeps an infinity or a NaN. *)
Definition Ceil (x : option Q) : option Q :=
  option_map (fun v => inject_Z (Qceiling v)) x.

(** The conversion [int(x)]: the fraction is discarded; a value that
    does not fit the 64 bits of an [int], an infinity or a NaN converts
    to the least [int] (the result on amd64; the language leaves it to
    the implementation). *)
Definition to_int (x : option Q) : Z :=
  match x with
  | None => (- 2 ^ 63)%Z
  | Some v =>
      let z := Z.quot (Qnum v) (Zpos (Qden v)) in
      if ((- 2 ^ 63 <=? z) && (z <? 2 ^ 63))%Z then z else (- 2 ^ 63)%Z
  end.

End float64.

(** ** internal/core/domain/product.go *)

Module domain.

Definition ErrInvalidProduct : string := "invalid product data".
Definition ErrNotFound : string := "product not found".

Record Product : Type := mkProduct {
  ID : string;
  Name : string;
  Description : string;
  Price : Q;
  CreatedAt : Z;
  UpdatedAt : Z
}.

(** [NewProduct]: the two ambient reads of the Go function, the clock
    ([time.Now().UTC()]) and the UUID generator, are explicit
    arguments. *)
Definition NewProduct (now : Z) (uuid : string)
    (name description : string) (price : Q) : go Product :=
  if String.eqb name "" then Fail "name is required"
  else if Qltb price 0 then Fail "price cannot be negative"
  else Return {| ID := uuid; Name := name; Description := description;
                 Price := price; CreatedAt := now; UpdatedAt := now |}.

End domain.

(** ** internal/adapters/http/dto *)

Module dto.

Record ListProductsRequest : Type := mkRequest {
  Page : Z;           (* form:"page"       binding:"min=1" *)
  Limit : Z;          (* form:"limit"      binding:"min=1,max=100" *)
  Name : string;      (* form:"name" *)
  MinPrice : Q;       (* form:"min_price"  binding:"min=0" *)
  MaxPrice : Q;       (* form:"max_price"  binding:"min=0" *)
  SortBy : string;    (* form:"sort_by"    binding:"omitempty,oneof=name price created_at updated_at" *)
  SortOrder : string; (* form:"sort_order" binding:"omitempty,oneof=asc desc" *)
  Fields : string     (* form:"fields" *)
}.

Record ProductResponse : Type := {
  pr_ID : string;
  pr_Name : string;
  pr_Description : string;
  pr_Price : Q;
  pr_CreatedAt : Z;
  pr_UpdatedAt : Z
}.

Record PaginationInfo : Type := {
  CurrentPage : Z;
  PerPage : Z;
  TotalPages : Z;
  TotalItems : Z;
  HasNext : bool;
  HasPrev : bool
}.

Record FilterInfo : Type := {
  fi_Name : string;     (* json:"name,omitempty" *)
  fi_MinPrice : Q;      (* json:"min_price,omitempty" *)
  fi_MaxPrice : Q       (* json:"max_price,omitempty" *)
}.

Record ListProductsResponse : Type := {
  Products : list ProductResponse;
  Pagination : PaginationInfo;
  FiltersApplied : FilterInfo
}.

(** The four assignments of [SetDefaults] touch four distinct fields. *)
Definition SetDefaults (r : ListProductsRequest) : ListProductsRequest :=
  {| Page := if (Page r <=? 0)%Z then 1%Z else Page r;
     Limit := if (Limit r <=? 0)%Z then 20%Z else Limit r;
     Name := Name r;
     MinPrice := MinPrice r;
     MaxPrice := MaxPrice r;
     SortBy := if String.eqb (SortBy r) "" then "created_at" else SortBy r;
     SortOrder := if String.eqb (SortOrder r) "" then "desc" else SortOrder r;
     Fields := Fields r |}.

Definition GetOffset (r : ListProductsRequest) : Z :=
  ((Page r - 1) * Limit r)%Z.

Definition HasFilters (r : ListProductsRequest) : bool :=
  negb (String.eqb (Name r) "") || Qltb 0 (MinPrice r) || Qltb 0 (MaxPrice r).

Definition NewProductResponse (id name description : string) (price : Q)
    (createdAt updatedAt : Z) : ProductResponse :=
  {| pr_ID := id; pr_Name := name; pr_Description := description;
     pr_Price := price; pr_CreatedAt := createdAt; pr_UpdatedAt := updatedAt |}.

(** The zero value [FilterInfo{}]. *)
Definition FilterInfo_zero : FilterInfo :=
  {| fi_Name := ""; fi_MinPrice := 0; fi_MaxPrice := 0 |}.

(** The JSON object written for a [FilterInfo]: a member tagged
    [omitempty] is left out when it holds the zero value of its type. *)
Inductive json_value : Type :=
| JString (s : string)
| JNumber (q : Q).

Definition FilterInfo_json (f : FilterInfo) : list (string * json_value) :=
  (if String.eqb (fi_Name f) "" then [] else [("name", JString (fi_Name f))])
  ++ (if Qeq_bool (fi_MinPrice f) 0 then []
      else [("min_price", JNumber (fi_MinPrice f))])
  ++ (if Qeq_bool (fi_MaxPrice f) 0 then []
      else [("max_price", JNumber (fi_MaxPrice f))]).

End dto.

(** ** Query binding ([c.ShouldBindQuery])

    The handler hands the raw query string to the HTTP framework, which
    fills the request struct field by field from the [form] tags and then
    runs the validator over the [binding] tags.  A [Param] is what the
    framework's conversion makes of one parameter: it is absent, or its
    text converts to a value of the field's type, or the conversion
    fails with the converter's error.  An empty numeric parameter
    ([page=]) converts to zero. *)

Module binding.

Inductive Param (A : Type) : Type :=
| Absent
| Parsed (a : A)
| Unparsable (err : string).
Arguments Absent {A}.
Arguments Parsed {A} a.
Arguments Unparsable {A} err.

Record Query : Type := mkQuery {
  page : Param Z;
  limit : Param Z;
  name : option string;
  min_price : Param Q;
  max_price : Param Q;
  sort_by : option string;
  sort_order : option string;
  fields : option string
}.

(** An absent parameter leaves the field at its zero value. *)
Definition set_field {A : Type} (zero : A) (p : Param A) : go A :=
  match p with
  | Absent => Return zero
  | Parsed a => Return a
  | Unparsable e => Fail e
  end.

Definition set_string (p : option string) : string :=
  match p with
  | Some s => s
  | None => ""
  end.

(** Fields are filled in declaration order; the first conversion error
    ends the binding. *)
Definition mapForm (q : Query) : go dto.ListProductsRequest :=
  let* Page := set_field 0%Z (page q) in
  let* Limit := set_field 0%Z (limit q) in
  let* MinPrice := set_field 0%Q (min_price q) in
  let* MaxPrice := set_field 0%Q (max_price q) in
  Return {| dto.Page := Page;
            dto.Limit := Limit;
            dto.Name := set_string (name q);
            dto.MinPrice := MinPrice;
            dto.MaxPrice := MaxPrice;
            dto.SortBy := set_string (sort_by q);
            dto.SortOrder := set_string (sort_order q);
            dto.Fields := set_string (fields q) |}.

Definition field_error (field tag : string) : string :=
  "Key: 'ListProductsRequest." +:+ field
  +:+ "' Error:Field validation for '" +:+ field
  +:+ "' failed on the '" +:+ tag +:+ "' tag".

(** The tags of one field run in order and stop at the first that
    fails.  A tag runs on the zero value too, unless [omitempty]
    precedes it. *)
Fixpoint run_tags (field : string) (tags : list (string * bool)) : list string :=
  match tags with
  | [] => []
  | (tag, ok) :: rest =>
      if ok then run_tags field rest else [field_error field tag]
  end.

Definition omitempty (v : string) (errs : list string) : list string :=
  if String.eqb v "" then [] else errs.

Definition oneof (v : string) (allowed : list string) : bool :=
  existsb (String.eqb v) allowed.

Definition validate (r : dto.ListProductsRequest) : list string :=
  run_tags "Page" [("min", (1 <=? dto.Page r)%Z)]
  ++ run_tags "Limit" [("min", (1 <=? dto.Limit r)%Z);
                       ("max", (dto.Limit r <=? 100)%Z)]
  ++ run_tags "MinPrice" [("min", Qle_bool 0 (dto.MinPrice r))]
  ++ run_tags "MaxPrice" [("min", Qle_bool 0 (dto.MaxPrice r))]
  ++ omitempty (dto.SortBy r)
       (run_tags "SortBy"
          [("oneof", oneof (dto.SortBy r)
                       ["name"; "price"; "created_at"; "updated_at"])])
  ++ omitempty (dto.SortOrder r)
       (run_tags "SortOrder"
          [("oneof", oneof (dto.SortOrder r) ["asc"; "desc"])]).

Definition newline : string := String (Ascii.ascii_of_nat 10) EmptyString.

Fixpoint join (sep : string) (l : list string) : string :=
  match l with
  | [] => ""
  | [x] => x
  | x :: rest => x +:+ sep +:+ join sep rest
  end.

Definition ShouldBindQuery (q : Query) : go dto.ListProductsRequest :=
  let* r := mapForm q in
  match validate r with
  | [] => Return r
  | errs => Fail (join newline errs)
  end.

End binding.

(** ** internal/core/ports *)

Module ports.

(** [ports.ProductFilters], declared beside the repository port: the
    Filter Specification of the spec, with the offset already
    computed. *)
Record ProductFilters : Type := mkFilters {
  Name : string;
  MinPrice : Q;
  MaxPrice : Q;
  SortBy : string;
  SortOrder : string;
  Offset : Z;
  Limit : Z
}.

(** [ports.ProductListResult] *)
Record ProductListResult : Type := mkResult {
  Products : list domain.Product;
  TotalItems : Z
}.

(** [ports.ProductRepository], over a store state [S] that every call
    receives and returns.  [ListWithFilters] is the method the service
    calls and the DynamoDB repository implements. *)
Record ProductRepository (S : Type) : Type := {
  Save : domain.Product -> S -> go unit * S;
  GetByID : string -> S -> go domain.Product * S;
  Update : domain.Product -> S -> go unit * S;
  Delete : string -> S -> go unit * S;
  List : S -> go (list domain.Product) * S;
  ListWithFilters : ProductFilters -> S -> go ProductListResult * S
}.
Arguments Save {S} _ _ _.
Arguments GetByID {S} _ _ _.
Arguments Update {S} _ _ _.
Arguments Delete {S} _ _ _.
Arguments List {S} _ _.
Arguments ListWithFilters {S} _ _ _.

End ports.

(** ** The key-value store

    One table of product items with the string hash key [id], the key
    [GetByID] and [Delete] are written for, listed in the order in
    which a Scan walks it.  The model covers one page of results: the
    table is assumed to stay under the store's size limit for a single
    Scan response, as the repository never follows a continuation
    key. *)

Module dynamodb.
Import domain.

(** A filter expression is a conjunction of conditions, each with its
    attribute name and value resolved; the maps of names and values of
    a request are not modelled apart from that. *)
Inductive Condition : Type :=
| NameContains (v : string)   (* contains(#name, :name) *)
| PriceGe (v : Q)             (* price >= :min_price *)
| PriceLe (v : Q).            (* price <= :max_price *)

Inductive SelectKind : Type :=
| SelectAllAttributes
| SelectCount.

Record ScanInput : Type := {
  TableName : string;
  Limit : option Z;
  FilterExpression : option (list Condition);
  Select : SelectKind
}.

Record ScanOutput : Type := {
  Items : list Product;
  Count : Z;
  ScannedCount : Z
}.

(** An item as a request carries it: attribute names with their
    values.  A time travels as the string of its RFC 3339 text. *)
Inductive AttributeValue : Type :=
| AttrS (s : string)
| AttrN (n : Q)
| AttrTime (t : Z).

Definition Item : Type := list (string * AttributeValue).

(** The hash key of the products table, the one [GetItem] and
    [DeleteItem] are given. *)
Definition key_name : string := "id".

Inductive Operation : Type :=
| OpScan (input : ScanInput)
| OpPutItem (item : Item)
| OpGetItem (id : string)
| OpDeleteItem (id : string).

(** The client's view of the store: the items, whether the store
    answers ([fault] is the error every request meets when it does
    not), and the requests sent so far. *)
Record Client : Type := mkClient {
  table : list Product;
  fault : option string;
  log : list Operation
}.

Definition sent (op : Operation) (c : Client) : Client :=
  {| table := table c; fault := fault c; log := log c ++ [op] |}.

(** Case-sensitive substring test. *)
Fixpoint contains (s sub : string) : bool :=
  String.prefix sub s ||
  match s with
  | EmptyString => false
  | String _ s' => contains s' sub
  end.

Definition holds (c : Condition) (p : Product) : bool :=
  match c with
  | NameContains v => contains (Name p) v
  | PriceGe v => Qle_bool v (Price p)
  | PriceLe v => Qle_bool (Price p) v
  end.

Definition matches (fe : option (list Condition)) (p : Product) : bool :=
  match fe with
  | None => true
  | Some cs => forallb (fun c => holds c p) cs
  end.

(** [Limit] bounds the number of items evaluated, before the filter
    expression is applied to them; a limit below 1 is refused. *)
Definition evaluated (items : list Product) (lim : option Z) : go (list Product) :=
  match lim with
  | None => Return items
  | Some n =>
      if (n <? 1)%Z then Fail "ValidationException: Limit must be at least 1"
      else Return (take (Z.to_nat n) items)
  end.

Definition Scan (input : ScanInput) (c : Client) : go ScanOutput * Client :=
  let c' := sent (OpScan input) c in
  match fault c with
  | Some e => (Fail e, c')
  | None =>
      (let* scanned := evaluated (table c) (Limit input) in
       let matched := List.filter (matches (FilterExpression input)) scanned in
       Return {| Items := match Select input with
                          | SelectAllAttributes => matched
                          | SelectCount => []
                          end;
                 Count := Z.of_nat (length matched);
                 ScannedCount := Z.of_nat (length scanned) |},
       c')
  end.

(** [attributevalue.MarshalMap] of a product.  The struct carries
    [json] tags only, which the encoder does not read, so every
    attribute is named after its Go field. *)
Definition MarshalMap (p : Product) : Item :=
  [("ID", AttrS (ID p));
   ("Name", AttrS (Name p));
   ("Description", AttrS (Description p));
   ("Price", AttrN (Price p));
   ("CreatedAt", AttrTime (CreatedAt p));
   ("UpdatedAt", AttrTime (UpdatedAt p))].

(** The attribute of an item with exactly this name. *)
Definition attribute (name : string) (item : Item) : option AttributeValue :=
  option_map snd (List.find (fun a => String.eqb (fst a) name) item).

(** [attributevalue.UnmarshalMap] into a product: a field takes the
    attribute with its name, or else one whose name differs from it in
    letter case only; a field without such an attribute of its type
    keeps the zero value. *)
Definition lower (a : ascii) : ascii :=
  let n := Ascii.nat_of_ascii a in
  if ((65 <=? n) && (n <=? 90))%nat then Ascii.ascii_of_nat (n + 32) else a.

Fixpoint fold_case (s : string) : string :=
  match s with
  | EmptyString => EmptyString
  | String a rest => String (lower a) (fold_case rest)
  end.

Definition field (name : string) (item : Item) : option AttributeValue :=
  match attribute name item with
  | Some v => Some v
  | None =>
      option_map snd
        (List.find (fun a => String.eqb (fold_case (fst a)) (fold_case name)) item)
  end.

Definition string_field (name : string) (item : Item) : string :=
  match field name item with
  | Some (AttrS s) => s
  | _ => ""
  end.

Definition number_field (name : string) (item : Item) : Q :=
  match field name item with
  | Some (AttrN n) => n
  | _ => 0
  end.

Definition time_field (name : string) (item : Item) : Z :=
  match field name item with
  | Some (AttrTime t) => t
  | _ => 0%Z
  end.

Definition UnmarshalMap (item : Item) : Product :=
  {| ID := string_field "ID" item;
     Name := string_field "Name" item;
     Description := string_field "Description" item;
     Price := number_field "Price" item;
     CreatedAt := time_field "CreatedAt" item;
     UpdatedAt := time_field "UpdatedAt" item |}.

(** The table lists each item as [UnmarshalMap] reads it.  [put]
    overwrites the item with the same key, or adds one. *)
Fixpoint put (item : Product) (items : list Product) : list Product :=
  match items with
  | [] => [item]
  | p :: rest =>
      if String.eqb (ID p) (ID item) then item :: rest
      else p :: put item rest
  end.

(** The store's answer to an item without its key attribute (the
    request id and status line of the client's error text are left
    out). *)
Definition missing_key : string :=
  "ValidationException: One or more parameter values were invalid: Missing the key id in the item".

(** [PutItem] refuses an item that lacks the string key attribute;
    otherwise it overwrites the item with the same key, or adds one. *)
Definition PutItem (item : Item) (c : Client) : go unit * Client :=
  let c' := sent (OpPutItem item) c in
  match fault c with
  | Some e => (Fail e, c')
  | None =>
      match attribute key_name item with
      | Some (AttrS _) =>
          (Return tt, {| table := put (UnmarshalMap item) (table c);
                         fault := fault c; log := log c' |})
      | _ => (Fail missing_key, c')
      end
  end.

Definition GetItem (id : string) (c : Client) : go (option Product) * Client :=
  let c' := sent (OpGetItem id) c in
  match fault c with
  | Some e => (Fail e, c')
  | None => (Return (List.find (fun p => String.eqb (ID p) id) (table c)), c')
  end.

Definition DeleteItem (id : string) (c : Client) : go unit * Client :=
  let c' := sent (OpDeleteItem id) c in
  match fault c with
  | Some e => (Fail e, c')
  | None =>
      (Return tt,
       {| table := List.filter (fun p => negb (String.eqb (ID p) id)) (table c);
          fault := fault c; log := log c' |})
  end.

End dynamodb.

(** ** The in-memory sort of the repository *)

Module sorting.
Import domain.

(** The closure [compare] of [sortProducts], applied to the two records
    it reads.  The [switch] has cases for "name" and "price"; the case
    "created_at" falls through to [default], which therefore also
    serves "updated_at". *)
Definition compare (sortBy sortOrder : string) (a b : Product) : bool :=
  if String.eqb sortBy "name" then
    if String.eqb sortOrder "desc" then String.ltb (Name b) (Name a)
    else String.ltb (Name a) (Name b)
  else if String.eqb sortBy "price" then
    if String.eqb sortOrder "desc" then Qltb (Price b) (Price a)
    else Qltb (Price a) (Price b)
  else
    if String.eqb sortOrder "desc" then (CreatedAt b <? CreatedAt a)%Z
    else (CreatedAt a <? CreatedAt b)%Z.

Section InsertionSort.
Variable less : Product -> Product -> bool.

(** The inner loop
    [for j >= 0 && compare(j, j+1) { sorted[j+1] = sorted[j]; j-- }],
    started at [j = j1 - 1].  It returns the slice and [j + 1].  The
    indices [j] and [j+1] are at most [i], inside the slice, so the
    last branch (a Go index panic) is never taken: see
    [shift_spec]. *)
Fixpoint shift (sorted : list Product) (j1 : nat) : list Product * nat :=
  match j1 with
  | O => (sorted, O)
  | S j =>
      match sorted !! j, sorted !! (S j) with
      | Some a, Some b =>
          if less a b then shift (<[S j := a]> sorted) j
          else (sorted, S j)
      | _, _ => (sorted, S j)
      end
  end.

(** One iteration of the outer loop at index [i]:
    [key := sorted[i]; j := i - 1; <inner loop>; sorted[j+1] = key]. *)
Definition insert_at (sorted : list Product) (i : nat) : list Product :=
  match sorted !! i with
  | Some key =>
      let '(s, j1) := shift sorted i in <[j1 := key]> s
  | None => sorted
  end.

(** [for i := ...; i < len(sorted); i++], with [n] iterations left. *)
Fixpoint insertion_loop (n i : nat) (sorted : list Product) : list Product :=
  match n with
  | O => sorted
  | S n' => insertion_loop n' (S i) (insert_at sorted i)
  end.
End InsertionSort.

Definition sortProducts (products : list Product)
    (sortBy sortOrder : string) : list Product :=
  if (length products <=? 1)%nat then products
  else insertion_loop (compare sortBy sortOrder)
         (length products - 1) 1 products.

End sorting.

(** ** internal/adapters/repository/dynamodb.go *)

Module repository.
Import domain.

(** [fmt.Sprintf("%.2f", x)]: the decimal with two fractional digits
    nearest to [x], a tie going to the even last digit.  The store reads
    the text back as that exact decimal. *)
Definition round_half_even (q : Q) : Z :=
  let f := Qfloor q in
  match Qcompare (q - inject_Z f) (1 # 2) with
  | Lt => f
  | Gt => (f + 1)%Z
  | Eq => if Z.even f then f else (f + 1)%Z
  end.

Definition Sprintf_2f (x : Q) : Q :=
  Qmake (round_half_even (x * 100)) 100.

Record DynamoDBRepository : Type := { tableName : string }.

Section Repository.
Variable r : DynamoDBRepository.

(** The [conditions] slice, in the order of the three [append]s. *)
Definition conditions (filters : ports.ProductFilters) : list dynamodb.Condition :=
  (if negb (String.eqb (ports.Name filters) "")
   then [dynamodb.NameContains (ports.Name filters)] else [])
  ++ (if Qltb 0 (ports.MinPrice filters)
      then [dynamodb.PriceGe (Sprintf_2f (ports.MinPrice filters))] else [])
  ++ (if Qltb 0 (ports.MaxPrice filters)
      then [dynamodb.PriceLe (Sprintf_2f (ports.MaxPrice filters))] else []).

Definition any_filter (filters : ports.ProductFilters) : bool :=
  negb (String.eqb (ports.Name filters) "")
  || Qltb 0 (ports.MinPrice filters)
  || Qltb 0 (ports.MaxPrice filters).

(** The input of the primary Scan. *)
Definition scanInput (filters : ports.ProductFilters) : dynamodb.ScanInput :=
  {| dynamodb.TableName := tableName r;
     dynamodb.Limit := Some (int32 (ports.Limit filters));
     dynamodb.FilterExpression :=
       if any_filter filters then Some (conditions filters) else None;
     dynamodb.Select := dynamodb.SelectAllAttributes |}.

(** The input of the count-only Scan of [getTotalCount]. *)
Definition countInput (filters : ports.ProductFilters) : dynamodb.ScanInput :=
  {| dynamodb.TableName := tableName r;
     dynamodb.Limit := None;
     dynamodb.FilterExpression :=
       if any_filter filters then
         if (0 <? length (conditions filters))%nat
         then Some (conditions filters) else None
       else None;
     dynamodb.Select := dynamodb.SelectCount |}.

Definition getTotalCount (filters : ports.ProductFilters)
    (c : dynamodb.Client) : go Z * dynamodb.Client :=
  match dynamodb.Scan (countInput filters) c with
  | (Return result, c') => (Return (dynamodb.Count result), c')
  | (Fail err, c') => (Fail err, c')
  | (Panic msg, c') => (Panic msg, c')
  end.

(** The offset and limit block that ends [ListWithFilters]. *)
Definition paginate (products : list Product) (offset limit : Z) : go (list Product) :=
  let* products :=
    (if (offset <? Z.of_nat (length products))%Z
     then slice_from products offset
     else Return []) in
  if (limit <? Z.of_nat (length products))%Z
  then slice_to products limit
  else Return products.

(** Items of the table are well-formed product records, so unmarshalling
    the Scan result cannot fail. *)
Definition ListWithFilters (filters : ports.ProductFilters)
    (c : dynamodb.Client) : go ports.ProductListResult * dynamodb.Client :=
  match dynamodb.Scan (scanInput filters) c with
  | (Fail err, c1) => (Fail (wrap "failed to scan products" err), c1)
  | (Panic msg, c1) => (Panic msg, c1)
  | (Return result, c1) =>
      let products := dynamodb.Items result in
      match getTotalCount filters c1 with
      | (Fail err, c2) => (Fail (wrap "failed to get total count" err), c2)
      | (Panic msg, c2) => (Panic msg, c2)
      | (Return totalItems, c2) =>
          let products :=
            sorting.sortProducts products
              (ports.SortBy filters) (ports.SortOrder filters) in
          (let* products :=
             paginate products (ports.Offset filters) (ports.Limit filters) in
           Return {| ports.Products := products;
                     ports.TotalItems := totalItems |},
           c2)
      end
  end.

(** [MarshalMap] encodes every field of a product, so the marshal
    error that [Save] would wrap is not met. *)
Definition Save (product : Product) (c : dynamodb.Client) : go unit * dynamodb.Client :=
  dynamodb.PutItem (dynamodb.MarshalMap product) c.

Definition GetByID (id : string) (c : dynamodb.Client) : go Product * dynamodb.Client :=
  match dynamodb.GetItem id c with
  | (Return (Some product), c') => (Return product, c')
  | (Return None, c') => (Fail ErrNotFound, c')
  | (Fail err, c') => (Fail err, c')
  | (Panic msg, c') => (Panic msg, c')
  end.

Definition Update (product : Product) (c : dynamodb.Client) : go unit * dynamodb.Client :=
  Save product c.

Definition Delete (id : string) (c : dynamodb.Client) : go unit * dynamodb.Client :=
  dynamodb.DeleteItem id c.

Definition List (c : dynamodb.Client) : go (list Product) * dynamodb.Client :=
  match dynamodb.Scan {| dynamodb.TableName := tableName r;
                         dynamodb.Limit := None;
                         dynamodb.FilterExpression := None;
                         dynamodb.Select := dynamodb.SelectAllAttributes |} c with
  | (Return result, c') => (Return (dynamodb.Items result), c')
  | (Fail err, c') => (Fail err, c')
  | (Panic msg, c') => (Panic msg, c')
  end.

(** The repository as an implementation of the port. *)
Definition as_port : ports.ProductRepository dynamodb.Client :=
  {| ports.Save := Save;
     ports.GetByID := GetByID;
     ports.Update := Update;
     ports.Delete := Delete;
     ports.List := List;
     ports.ListWithFilters := ListWithFilters |}.

End Repository.

End repository.

(** ** internal/core/services/product_service.go

    The service is written against the repository port; its logger calls
    have no effect on results and are left out. *)

Module services.
Import domain.

Section Service.
Context {S : Type}.
Variable repo : ports.ProductRepository S.

Definition Create (now : Z) (uuid : string)
    (name description : string) (price : Q) (st : S) : go Product * S :=
  match NewProduct now uuid name description price with
  | Fail _ => (Fail ErrInvalidProduct, st)
  | Panic msg => (Panic msg, st)
  | Return product =>
      match ports.Save repo product st with
      | (Fail err, st') => (Fail err, st')
      | (Panic msg, st') => (Panic msg, st')
      | (Return _, st') => (Return product, st')
      end
  end.

Definition ListWithFilters (filters : ports.ProductFilters) (st : S)
    : go ports.ProductListResult * S :=
  match ports.ListWithFilters repo filters st with
  | (Fail err, st') => (Fail err, st')
  | (Panic msg, st') => (Panic msg, st')
  | (Return result, st') => (Return result, st')
  end.

(** [Get], [Delete] and [List] hand the call to the repository. *)
Definition Get (id : string) (st : S) : go Product * S :=
  ports.GetByID repo id st.

(** [Update] reads the record, overwrites its three mutable fields and
    its update time ([now] is the clock read), and writes it back.  The
    new values are not validated. *)
Definition Update (now : Z) (id name description : string) (price : Q)
    (st : S) : go Product * S :=
  match ports.GetByID repo id st with
  | (Fail err, st1) => (Fail err, st1)
  | (Panic msg, st1) => (Panic msg, st1)
  | (Return existing, st1) =>
      let existing :=
        {| ID := ID existing;
           Name := name;
           Description := description;
           Price := price;
           CreatedAt := CreatedAt existing;
           UpdatedAt := now |} in
      match ports.Update repo existing st1 with
      | (Fail err, st2) => (Fail err, st2)
      | (Panic msg, st2) => (Panic msg, st2)
      | (Return _, st2) => (Return existing, st2)
      end
  end.

Definition Delete (id : string) (st : S) : go unit * S :=
  ports.Delete repo id st.

Definition List (st : S) : go (list Product) * S :=
  ports.List repo st.

End Service.
End services.

(** ** internal/adapters/http/product_handler.go *)

Module handler.
Import domain.

Inductive Body : Type :=
| ErrorBody (error : string) (details : option string)
| ListBody (response : dto.ListProductsResponse)
| NoBody.

Record Response : Type := {
  Status : Z;
  Payload : Body
}.

Definition StatusOK : Z := 200.
Definition StatusBadRequest : Z := 400.
Definition StatusInternalServerError : Z := 500.

(** [int(math.Ceil(float64(totalItems) / float64(limit)))] *)
Definition total_pages (totalItems limit : Z) : Z :=
  float64.to_int
    (float64.Ceil
       (float64.div (float64.of_int totalItems) (float64.of_int limit))).

Definition to_response (product : Product) : dto.ProductResponse :=
  dto.NewProductResponse (ID product) (Name product) (Description product)
    (Price product) (CreatedAt product) (UpdatedAt product).

(** The [ports.ProductFilters] literal of [List]. *)
Definition filters_of (req : dto.ListProductsRequest) : ports.ProductFilters :=
  {| ports.Name := dto.Name req;
     ports.MinPrice := dto.MinPrice req;
     ports.MaxPrice := dto.MaxPrice req;
     ports.SortBy := dto.SortBy req;
     ports.SortOrder := dto.SortOrder req;
     ports.Offset := dto.GetOffset req;
     ports.Limit := dto.Limit req |}.

(** The [dto.PaginationInfo] literal of [List]. *)
Definition pagination_of (req : dto.ListProductsRequest)
    (result : ports.ProductListResult) : dto.PaginationInfo :=
  {| dto.CurrentPage := dto.Page req;
     dto.PerPage := dto.Limit req;
     dto.TotalItems := ports.TotalItems result;
     dto.TotalPages := total_pages (ports.TotalItems result) (dto.Limit req);
     dto.HasNext := (dto.Page req * dto.Limit req <? ports.TotalItems result)%Z;
     dto.HasPrev := (1 <? dto.Page req)%Z |}.

(** The response of [List]: the converted products, the pagination
    block and, if a filter was applied, its echo. *)
Definition response_of (req : dto.ListProductsRequest)
    (result : ports.ProductListResult) : dto.ListProductsResponse :=
  {| dto.Products := List.map to_response (ports.Products result);
     dto.Pagination := pagination_of req result;
     dto.FiltersApplied :=
       if dto.HasFilters req then
         {| dto.fi_Name := dto.Name req;
            dto.fi_MinPrice := dto.MinPrice req;
            dto.fi_MaxPrice := dto.MaxPrice req |}
       else dto.FilterInfo_zero |}.

Definition bad_request (error : string) (details : option string) : Response :=
  {| Status := StatusBadRequest; Payload := ErrorBody error details |}.

Section List.
Context {S : Type}.
(** [h.service.ListWithFilters] *)
Variable service_ListWithFilters :
  ports.ProductFilters -> S -> go ports.ProductListResult * S.

(** A panic below the handler is caught by the recovery middleware,
    which answers 500 without a body. *)
Definition List (q : binding.Query) (st : S) : Response * S :=
  match binding.ShouldBindQuery q with
  | Fail err => (bad_request "invalid query parameters" (Some err), st)
  | Panic _ => ({| Status := StatusInternalServerError; Payload := NoBody |}, st)
  | Return req =>
      let req := dto.SetDefaults req in
      if (1000 <? dto.Page req)%Z then
        (bad_request "page cannot exceed 1000" None, st)
      else if Qltb 0 (dto.MinPrice req) && Qltb 0 (dto.MaxPrice req)
              && Qltb (dto.MaxPrice req) (dto.MinPrice req) then
        (bad_request "min_price cannot be greater than max_price" None, st)
      else
        match service_ListWithFilters (filters_of req) st with
        | (Fail _, st') =>
            ({| Status := StatusInternalServerError;
                Payload := ErrorBody "internal server error" None |}, st')
        | (Panic _, st') =>
            ({| Status := StatusInternalServerError; Payload := NoBody |}, st')
        | (Return result, st') =>
            ({| Status := StatusOK;
                Payload := ListBody (response_of req result) |}, st')
        end
  end.

End List.
End handler.

(** ** The single-record handlers of product_handler.go

    [Create], [Get], [Update] and [Delete].  The sentinel errors of the
    domain are recognised by their text, which no other error of the
    model carries unless a store fault is given that very text. *)

Module handler_crud.
Import domain.

Record CreateProductRequest : Type := {
  Name : string;         (* json:"name"        binding:"required" *)
  Description : string;  (* json:"description" *)
  Price : Q              (* json:"price"       binding:"required,gt=0" *)
}.

(** What the JSON decoder makes of a request body: it fails with its
    error, or fills the struct, a missing member keeping the zero
    value. *)
Inductive JSONBody : Type :=
| Malformed (err : string)
| Decoded (req : CreateProductRequest).

Definition field_error (field tag : string) : string :=
  "Key: 'CreateProductRequest." +:+ field
  +:+ "' Error:Field validation for '" +:+ field
  +:+ "' failed on the '" +:+ tag +:+ "' tag".

Fixpoint run_tags (field : string) (tags : list (string * bool)) : list string :=
  match tags with
  | [] => []
  | (tag, ok) :: rest =>
      if ok then run_tags field rest else [field_error field tag]
  end.

(** [required] fails on the zero value of the field's type. *)
Definition validate (req : CreateProductRequest) : list string :=
  run_tags "Name" [("required", negb (String.eqb (Name req) ""))]
  ++ run_tags "Price" [("required", negb (Qeq_bool (Price req) 0));
                       ("gt", Qltb 0 (Price req))].

Definition ShouldBindJSON (body : JSONBody) : go CreateProductRequest :=
  match body with
  | Malformed err => Fail err
  | Decoded req =>
      match validate req with
      | [] => Return req
      | errs => Fail (binding.join binding.newline errs)
      end
  end.

Inductive Body : Type :=
| ErrorBody (error : string)
| ProductBody (product : Product)
| NoBody.

Record Response : Type := {
  Status : Z;
  Payload : Body
}.

Definition StatusOK : Z := 200.
Definition StatusCreated : Z := 201.
Definition StatusNoContent : Z := 204.
Definition StatusBadRequest : Z := 400.
Definition StatusNotFound : Z := 404.
Definition StatusInternalServerError : Z := 500.

Definition internal_error : Response :=
  {| Status := StatusInternalServerError;
     Payload := ErrorBody "internal server error" |}.

(** The answer of the recovery middleware to a panic. *)
Definition recovered : Response :=
  {| Status := StatusInternalServerError; Payload := NoBody |}.

Section Handlers.
Context {S : Type}.
(** The methods of [h.service]. *)
Variable service_Create : string -> string -> Q -> S -> go Product * S.
Variable service_Get : string -> S -> go Product * S.
Variable service_Update : string -> string -> string -> Q -> S -> go Product * S.
Variable service_Delete : string -> S -> go unit * S.

Definition Create (body : JSONBody) (st : S) : Response * S :=
  match ShouldBindJSON body with
  | Fail err => ({| Status := StatusBadRequest; Payload := ErrorBody err |}, st)
  | Panic _ => (recovered, st)
  | Return req =>
      match service_Create (Name req) (Description req) (Price req) st with
      | (Fail err, st') =>
          if String.eqb err ErrInvalidProduct
          then ({| Status := StatusBadRequest; Payload := ErrorBody err |}, st')
          else (internal_error, st')
      | (Panic _, st') => (recovered, st')
      | (Return product, st') =>
          ({| Status := StatusCreated; Payload := ProductBody product |}, st')
      end
  end.

Definition Get (id : string) (st : S) : Response * S :=
  match service_Get id st with
  | (Fail err, st') =>
      if String.eqb err ErrNotFound
      then ({| Status := StatusNotFound; Payload := ErrorBody err |}, st')
      else (internal_error, st')
  | (Panic _, st') => (recovered, st')
  | (Return product, st') =>
      ({| Status := StatusOK; Payload := ProductBody product |}, st')
  end.

Definition Update (id : string) (body : JSONBody) (st : S) : Response * S :=
  match ShouldBindJSON body with
  | Fail err => ({| Status := StatusBadRequest; Payload := ErrorBody err |}, st)
  | Panic _ => (recovered, st)
  | Return req =>
      match service_Update id (Name req) (Description req) (Price req) st with
      | (Fail err, st') =>
          if String.eqb err ErrNotFound
          then ({| Status := StatusNotFound; Payload := ErrorBody err |}, st')
          else (internal_error, st')
      | (Panic _, st') => (recovered, st')
      | (Return product, st') =>
          ({| Status := StatusOK; Payload := ProductBody product |}, st')
      end
  end.

Definition Delete (id : string) (st : S) : Response * S :=
  match service_Delete id st with
  | (Fail err, st') =>
      if String.eqb err ErrNotFound
      then ({| Status := StatusNotFound; Payload := ErrorBody err |}, st')
      else (internal_error, st')
  | (Panic _, st') => (recovered, st')
  | (Return _, st') =>
      ({| Status := StatusNoContent; Payload := NoBody |}, st')
  end.

End Handlers.
End handler_crud.

(** ** The assembled application ([cmd/api/main.go]) *)

Definition productRepo : repository.DynamoDBRepository :=
  {| repository.tableName := "products" |}.

Definition list_products (q : binding.Query) (c : dynamodb.Client)
    : handler.Response * dynamodb.Client :=
  handler.List (services.ListWithFilters (repository.as_port productRepo)) q c.

(** The single-record routes over the same repository; [now] and [uuid]
    are the clock and generator reads of the request. *)
Definition productService : ports.ProductRepository dynamodb.Client :=
  repository.as_port productRepo.

Definition create_product (now : Z) (uuid : string)
    (body : handler_crud.JSONBody) (c : dynamodb.Client)
    : handler_crud.Response * dynamodb.Client :=
  handler_crud.Create (services.Create productService now uuid) body c.

Definition get_product (id : string) (c : dynamodb.Client)
    : handler_crud.Response * dynamodb.Client :=
  handler_crud.Get (services.Get productService) id c.

Definition update_product (now : Z) (id : string)
    (body : handler_crud.JSONBody) (c : dynamodb.Client)
    : handler_crud.Response * dynamodb.Client :=
  handler_crud.Update (services.Update productService now) id body c.

Definition delete_product (id : string) (c : dynamodb.Client)
    : handler_crud.Response * dynamodb.Client :=
  handler_crud.Delete (services.Delete productService) id c.

(** * Vocabulary of the properties *)

Module spec.

(** Two records have the same key for a comparison when neither is
    [less] than the other. *)
Definition same_key (less : domain.Product -> domain.Product -> bool)
    (a b : domain.Product) : bool :=
  negb (less a b) && negb (less b a).

(** The records a filter specification selects: those on which every
    condition the repository builds holds. *)
Definition selects (filters : ports.ProductFilters) (p : domain.Product) : bool :=
  forallb (fun c => dynamodb.holds c p) (repository.conditions filters).





(** A request struct that passes the validator. *)
Record bound (r : dto.ListProductsRequest) : Prop := {
  bound_page : (1 <= dto.Page r)%Z;
  bound_limit : (1 <= dto.Limit r <= 100)%Z;
  bound_min_price : (0 <= dto.MinPrice r)%Q;
  bound_max_price : (0 <= dto.MaxPrice r)%Q;
  bound_sort_by :
    dto.SortBy r = "" \/
    binding.oneof (dto.SortBy r)
      ["name"; "price"; "created_at"; "updated_at"] = true;
  bound_sort_order :
    dto.SortOrder r = "" \/
    binding.oneof (dto.SortOrder r) ["asc"; "desc"] = true
}.

(** The sort fields the binding accepts. *)
Definition sort_fields : list string :=
  ["name"; "price"; "created_at"; "updated_at"].

(** A page parameter that is present and is not an integer of at least
    1. *)
Definition page_not_positive (q : binding.Query) : Prop :=
  (exists err, binding.page q = binding.Unparsable err) \/
  (exists n, binding.page q = binding.Parsed n /\ (n < 1)%Z).

Definition with_min_price (q : binding.Query) (v : binding.Param Q) : binding.Query :=
  {| binding.page := binding.page q;
     binding.limit := binding.limit q;
     binding.name := binding.name q;
     binding.min_price := v;
     binding.max_price := binding.max_price q;
     binding.sort_by := binding.sort_by q;
     binding.sort_order := binding.sort_order q;
     binding.fields := binding.fields q |}.

Definition with_max_price (q : binding.Query) (v : binding.Param Q) : binding.Query :=
  {| binding.page := binding.page q;
     binding.limit := binding.limit q;
     binding.name := binding.name q;
     binding.min_price := binding.min_price q;
     binding.max_price := v;
     binding.sort_by := binding.sort_by q;
     binding.sort_order := binding.sort_order q;
     binding.fields := binding.fields q |}.

(** The conditions of a filter expression; none when there is no
    expression. *)
Definition conjuncts (fe : option (list dynamodb.Condition)) : list dynamodb.Condition :=
  match fe with
  | Some cs => cs
  | None => []
  end.

Definition is_lower_bound (c : dynamodb.Condition) : bool :=
  match c with
  | dynamodb.PriceGe _ => true
  | _ => false
  end.

Definition is_upper_bound (c : dynamodb.Condition) : bool :=
  match c with
  | dynamodb.PriceLe _ => true
  | _ => false
  end.

Definition keys (members : list (string * dto.json_value)) : list string :=
  List.map fst members.

(** No record of the list compares [less] than its right neighbour. *)
Fixpoint no_inversion (less : domain.Product -> domain.Product -> bool)
    (l : list domain.Product) : bool :=
  match l with
  | a :: (b :: _) as rest => negb (less a b) && no_inversion less rest
  | _ => true
  end.

(** The filters the handler may hand to the service. *)
Record validated (f : ports.ProductFilters) : Prop := {
  validated_limit : (1 <= ports.Limit f <= 100)%Z;
  validated_offset : (0 <= ports.Offset f <= 99900)%Z;
  validated_page :
    exists page, (1 <= page <= 1000)%Z /\
                 ports.Offset f = ((page - 1) * ports.Limit f)%Z;
  validated_sort_by : In (ports.SortBy f) sort_fields;
  validated_sort_order : In (ports.SortOrder f) ["asc"; "desc"];
  validated_min_price : (0 <= ports.MinPrice f)%Q;
  validated_max_price : (0 <= ports.MaxPrice f)%Q;
  validated_range :
    (0 < ports.MinPrice f)%Q -> (0 < ports.MaxPrice f)%Q ->
    (ports.MinPrice f <= ports.MaxPrice f)%Q
}.

(** The item of a table with a given key, as [GetItem] finds it. *)
Definition item_with (id : string) (items : list domain.Product)
    : option domain.Product :=
  List.find (fun p => String.eqb (domain.ID p) id) items.

(** Keys are unique in a table. *)
Definition unique_ids (items : list domain.Product) : Prop :=
  NoDup (List.map domain.ID items).

(** The value a numeric parameter gives its field, if it converts. *)
Definition param_value {A : Type} (zero : A) (p : binding.Param A) : option A :=
  match p with
  | binding.Absent => Some zero
  | binding.Parsed a => Some a
  | binding.Unparsable _ => None
  end.

(** The list requests that are not refused: page and limit are given
    and in range, the price bounds are absent or non-negative and, when
    both are above zero, ordered, and the sort field and direction are
    absent, empty or among the supported values. *)
Definition accepted (q : binding.Query) : Prop :=
  exists page limit lo hi,
    binding.page q = binding.Parsed page /\ (1 <= page <= 1000)%Z /\
    binding.limit q = binding.Parsed limit /\ (1 <= limit <= 100)%Z /\
    param_value 0%Q (binding.min_price q) = Some lo /\ (0 <= lo)%Q /\
    param_value 0%Q (binding.max_price q) = Some hi /\ (0 <= hi)%Q /\
    ((0 < lo)%Q -> (0 < hi)%Q -> (lo <= hi)%Q) /\
    (binding.set_string (binding.sort_by q) = "" \/
     In (binding.set_string (binding.sort_by q)) sort_fields) /\
    (binding.set_string (binding.sort_order q) = "" \/
     In (binding.set_string (binding.sort_order q)) ["asc"; "desc"]).

(** The update time of a product is not before its creation time. *)
Definition ordered_times (p : domain.Product) : Prop :=
  (domain.CreatedAt p <= domain.UpdatedAt p)%Z.

(** What the HTTP layer lets into the store: a name and a price above
    zero. *)
Definition well_formed (p : domain.Product) : Prop :=
  domain.Name p <> "" /\ (0 < domain.Price p)%Q.

End spec.

(** * Sample stores and requests *)

Module samples.
Import domain.

(** Product A (price 10.99, created at T1 = 1000) and product B
    (price 20.99, created at T2 = 2000). *)
Definition productA : Product :=
  {| ID := "1"; Name := "A"; Description := "first";
     Price := 1099 # 100; CreatedAt := 1000; UpdatedAt := 1000 |}.

Definition productB : Product :=
  {| ID := "2"; Name := "B"; Description := "second";
     Price := 2099 # 100; CreatedAt := 2000; UpdatedAt := 2000 |}.

Definition productC : Product :=
  {| ID := "3"; Name := "C"; Description := "third";
     Price := 3099 # 100; CreatedAt := 3000; UpdatedAt := 3000 |}.

(** Two products created at different times and last updated at the
    same instant. *)
Definition early : Product :=
  {| ID := "4"; Name := "early"; Description := "";
     Price := 5; CreatedAt := 1000; UpdatedAt := 5000 |}.

Definition late : Product :=
  {| ID := "5"; Name := "late"; Description := "";
     Price := 5; CreatedAt := 2000; UpdatedAt := 5000 |}.

(** A store whose first item does not contain "x" in its name and whose
    next two do. *)
Definition plain : Product :=
  {| ID := "6"; Name := "plain"; Description := "";
     Price := 1; CreatedAt := 100; UpdatedAt := 100 |}.

Definition box : Product :=
  {| ID := "7"; Name := "box"; Description := "";
     Price := 2; CreatedAt := 200; UpdatedAt := 200 |}.

Definition wax : Product :=
  {| ID := "8"; Name := "wax"; Description := "";
     Price := 3; CreatedAt := 300; UpdatedAt := 300 |}.

Definition store_AB : dynamodb.Client :=
  {| dynamodb.table := [productA; productB];
     dynamodb.fault := None; dynamodb.log := [] |}.

Definition store_x : dynamodb.Client :=
  {| dynamodb.table := [plain; box; wax];
     dynamodb.fault := None; dynamodb.log := [] |}.

(** [GET /api/v1/products?page=1&limit=1&name=x], as the handler passes
    it on. *)
Definition filters_x : ports.ProductFilters :=
  {| ports.Name := "x"; ports.MinPrice := 0; ports.MaxPrice := 0;
     ports.SortBy := "created_at"; ports.SortOrder := "desc";
     ports.Offset := 0; ports.Limit := 1 |}.






(** [GET /api/v1/products?page=1&limit=20] *)
Definition query_first_page : binding.Query :=
  {| binding.page := binding.Parsed 1%Z;
     binding.limit := binding.Parsed 20%Z;
     binding.name := None;
     binding.min_price := binding.Absent;
     binding.max_price := binding.Absent;
     binding.sort_by := None;
     binding.sort_order := None;
     binding.fields := None |}.





(** The request struct the binding makes of a well-formed query. *)
Definition bound_request (page limit : Z) (min max : Q) : dto.ListProductsRequest :=
  {| dto.Page := page; dto.Limit := limit; dto.Name := "";
     dto.MinPrice := min; dto.MaxPrice := max;
     dto.SortBy := ""; dto.SortOrder := ""; dto.Fields := "" |}.

(** [GET /api/v1/products?page=0&limit=20] *)
Definition query_page_zero : binding.Query :=
  {| binding.page := binding.Parsed 0%Z;
     binding.limit := binding.Parsed 20%Z;
     binding.name := None;
     binding.min_price := binding.Absent;
     binding.max_price := binding.Absent;
     binding.sort_by := None;
     binding.sort_order := None;
     binding.fields := None |}.

(** The one-character string of a double quote. *)
Definition quote : string := String (Ascii.ascii_of_nat 34) EmptyString.

(** The error of [strconv.ParseInt] on a text that is not a number: the
    text is quoted in the message. *)
Definition invalid_syntax (text : string) : string :=
  "strconv.ParseInt: parsing " +:+ quote +:+ text +:+ quote
  +:+ ": invalid syntax".

(** [GET /api/v1/products?page=abc&limit=20]; the text is the integer
    converter's error. *)
Definition query_page_abc : binding.Query :=
  {| binding.page := binding.Unparsable (invalid_syntax "abc");
     binding.limit := binding.Parsed 20%Z;
     binding.name := None;
     binding.min_price := binding.Absent;
     binding.max_price := binding.Absent;
     binding.sort_by := None;
     binding.sort_order := None;
     binding.fields := None |}.

(** A store that does not answer. *)
Definition store_down : dynamodb.Client :=
  {| dynamodb.table := [productA; productB];
     dynamodb.fault := Some "RequestError: send request failed";
     dynamodb.log := [] |}.


(** The body [{"name": "Lamp", "description": "desk lamp", "price": 12.5}]. *)
Definition body_lamp : handler_crud.JSONBody :=
  handler_crud.Decoded
    {| handler_crud.Name := "Lamp";
       handler_crud.Description := "desk lamp";
       handler_crud.Price := 25 # 2 |}.

End samples.

(** * Properties of the embedding *)

Lemma Qltb_lt x y : Qltb x y = true <-> (x < y)%Q.
Proof.
  unfold Qltb. rewrite negb_true_iff.
  split.
  - intros H. apply Qnot_le_lt. intros Hle.
    apply Qle_bool_iff in Hle. congruence.
  - intros H. destruct (Qle_bool y x) eqn:E; [|reflexivity].
    apply Qle_bool_iff in E. exfalso. eapply Qlt_not_le; eauto.
Qed.

Lemma Qltb_ge x y : Qltb x y = false <-> (y <= x)%Q.
Proof.
  unfold Qltb. rewrite negb_false_iff. apply Qle_bool_iff.
Qed.

(** *** What one insertion does, on lists *)

Module sorting_facts.
Import domain sorting spec.

Section Generic.
Variable less : Product -> Product -> bool.
Hypothesis less_trans :
  forall a b c, less a b = true -> less b c = true -> less a c = true.

(** Started just left of [y], the inner loop stops after having moved
    a block [A2] of the prefix one slot to the right; every record of
    that block is [less] than [y]. *)
Lemma shift_spec (A : list Product) :
  forall (y : Product) (B : list Product),
  exists A1 A2 z,
    A = A1 ++ A2 /\
    shift less (A ++ y :: B) (length A) = (A1 ++ z :: A2 ++ B, length A1) /\
    Forall (fun a => less a y = true) A2.
Proof.
  induction A as [|a A' IH] using rev_ind; intros y B.
  - exists [], [], y. simpl. auto.
  - rewrite length_app. simpl length.
    replace (length A' + 1)%nat with (S (length A')) by lia.
    cbn [shift].
    assert (Ha : ((A' ++ [a]) ++ y :: B) !! length A' = Some a).
    { rewrite <- app_assoc. simpl. apply list_lookup_middle. reflexivity. }
    assert (Hy : ((A' ++ [a]) ++ y :: B) !! S (length A') = Some y).
    { apply list_lookup_middle. rewrite length_app. simpl. lia. }
    rewrite Ha, Hy.
    destruct (less a y) eqn:Hlt.
    + assert (Hins : <[S (length A') := a]> ((A' ++ [a]) ++ y :: B)
                     = A' ++ a :: (a :: B)).
      { rewrite insert_app_r_alt by (rewrite length_app; simpl; lia).
        rewrite length_app. simpl length.
        replace (S (length A') - (length A' + 1))%nat with 0%nat by lia.
        simpl. rewrite <- app_assoc. reflexivity. }
      rewrite Hins.
      destruct (IH a (a :: B)) as (A1 & A2 & z & HA & Hs & Hall).
      exists A1, (A2 ++ [a]), z. split; [|split].
      * rewrite HA. rewrite app_assoc. reflexivity.
      * rewrite Hs. rewrite <- (app_assoc A2). reflexivity.
      * apply Forall_app. split.
        -- eapply Forall_impl; [exact Hall|].
           intros b Hb. simpl in Hb. eapply less_trans; eauto.
        -- constructor; [exact Hlt | constructor].
    + exists (A' ++ [a]), [], y. split; [|split].
      * rewrite app_nil_r. reflexivity.
      * rewrite length_app. simpl.
        replace (length A' + 1)%nat with (S (length A')) by lia.
        reflexivity.
      * constructor.
Qed.

(** One outer iteration takes [key] out of position [length A] and
    puts it back further left, past records that are all [less] than
    it. *)
Lemma insert_at_spec (A : list Product) (key : Product) (B : list Product) :
  exists A1 A2,
    A = A1 ++ A2 /\
    insert_at less (A ++ key :: B) (length A) = A1 ++ key :: A2 ++ B /\
    Forall (fun a => less a key = true) A2.
Proof.
  unfold insert_at.
  rewrite list_lookup_middle by reflexivity.
  destruct (shift_spec A key B) as (A1 & A2 & z & HA & Hs & Hall).
  exists A1, A2. split; [exact HA|]. split; [|exact Hall].
  rewrite Hs.
  rewrite insert_app_r_alt by lia.
  replace (length A1 - length A1)%nat with 0%nat by lia.
  reflexivity.
Qed.

(** Any property of slices that an insertion past [less] records
    preserves is preserved by the whole loop. *)
Lemma insert_at_preserves (R : list Product -> list Product -> Prop) :
  (forall l, R l l) ->
  (forall A1 A2 key B,
      Forall (fun a => less a key = true) A2 ->
      R (A1 ++ A2 ++ key :: B) (A1 ++ key :: A2 ++ B)) ->
  forall l i, R l (insert_at less l i).
Proof.
  intros Hrefl Hstep l i.
  destruct (le_lt_dec (length l) i) as [Hge|Hlt].
  - unfold insert_at. rewrite lookup_ge_None_2 by lia. apply Hrefl.
  - destruct (drop i l) as [|key B] eqn:Hd.
    { apply (f_equal length) in Hd. rewrite length_drop in Hd.
      simpl in Hd. lia. }
    assert (Hi : i = length (take i l)) by (rewrite length_take; lia).
    assert (Hl : l = take i l ++ key :: B)
      by (rewrite <- Hd; symmetry; apply take_drop).
    destruct (insert_at_spec (take i l) key B) as (A1 & A2 & HA & Hs & Hall).
    rewrite <- Hi, <- Hl in Hs. rewrite Hs.
    rewrite Hl at 1. rewrite HA. rewrite <- app_assoc.
    apply Hstep. exact Hall.
Qed.

Lemma insert_at_length (l : list Product) (i : nat) :
  length (insert_at less l i) = length l.
Proof.
  apply (insert_at_preserves (fun l l' => length l' = length l)).
  - reflexivity.
  - intros. rewrite !length_app. simpl. rewrite !length_app. simpl. lia.
Qed.

Lemma insertion_loop_length (n : nat) :
  forall i l, length (insertion_loop less n i l) = length l.
Proof.
  induction n as [|n IH]; intros i l; simpl; [reflexivity|].
  rewrite IH. apply insert_at_length.
Qed.

End Generic.

Section Stable.
Variable less : Product -> Product -> bool.
Hypothesis less_trans :
  forall a b c, less a b = true -> less b c = true -> less a c = true.
Hypothesis less_cut :
  forall a b c, less a b = true -> less a c = true \/ less c b = true.

Lemma filter_same_key_block (x key : Product) (A2 : list Product) :
  same_key less x key = true ->
  Forall (fun a => less a key = true) A2 ->
  List.filter (same_key less x) A2 = [].
Proof.
  intros Hk Hall. induction Hall as [|a A2 Ha _ IH]; [reflexivity|].
  simpl. rewrite IH.
  unfold same_key in *. apply andb_true_iff in Hk as [Hk1 Hk2].
  apply negb_true_iff in Hk1, Hk2.
  destruct (less_cut a key x Ha) as [Hax|Hxk]; [|congruence].
  rewrite Hax. rewrite andb_false_r. reflexivity.
Qed.

Lemma insert_at_stable (l : list Product) (i : nat) (x : Product) :
  List.filter (same_key less x) (insert_at less l i)
  = List.filter (same_key less x) l.
Proof.
  apply (insert_at_preserves less less_trans
           (fun l l' => List.filter (same_key less x) l'
                        = List.filter (same_key less x) l)).
  - reflexivity.
  - intros A1 A2 key B Hall.
    rewrite !List.filter_app. simpl.
    destruct (same_key less x key) eqn:Hk.
    + rewrite List.filter_app.
      rewrite (filter_same_key_block x key A2 Hk Hall). reflexivity.
    + rewrite List.filter_app. reflexivity.
Qed.

Lemma insertion_loop_stable (n : nat) (x : Product) :
  forall i l,
    List.filter (same_key less x) (insertion_loop less n i l)
    = List.filter (same_key less x) l.
Proof.
  induction n as [|n IH]; intros i l; simpl; [reflexivity|].
  rewrite IH. apply insert_at_stable.
Qed.

Lemma insertion_loop_perm (n : nat) :
  forall i l, Permutation (insertion_loop less n i l) l.
Proof.
  induction n as [|n IH]; intros i l; simpl; [reflexivity|].
  rewrite IH.
  apply (insert_at_preserves less less_trans (fun l l' => Permutation l' l)).
  - reflexivity.
  - intros A1 A2 key B _. apply Permutation_app_head.
    apply Permutation_middle.
Qed.
End Stable.

(** The orders behind [compare]. *)
Lemma string_ltb_trans a b c :
String.ltb a b = true -> String.ltb b c = true -> String.ltb a c = true.
Proof.
unfold String.ltb. intros Hab Hbc.
destruct (String.compare a b) eqn:E1; try discriminate.
destruct (String.compare b c) eqn:E2; try discriminate.
apply String_as_OT.cmp_lt in E1, E2.
pose proof (String_as_OT.lt_trans _ _ _ E1 E2) as H.
apply String_as_OT.cmp_lt in H.
unfold String_as_OT.cmp in H. rewrite H. reflexivity.
Qed.

Lemma string_ltb_cut a b c :
String.ltb a b = true -> String.ltb a c = true \/ String.ltb c b = true.
Proof.
intros Hab. unfold String.ltb at 1.
destruct (String.compare a c) eqn:E; [|left; reflexivity|].
- apply String.compare_eq_iff in E. subst c. right. exact Hab.
- right. rewrite String.compare_antisym in E.
  destruct (String.compare c a) eqn:E'; try discriminate.
  apply (string_ltb_trans c a b); [|exact Hab].
  unfold String.ltb. rewrite E'. reflexivity.
Qed.

Lemma Qltb_trans a b c :
Qltb a b = true -> Qltb b c = true -> Qltb a c = true.
Proof. rewrite !Qltb_lt. apply Qlt_trans. Qed.

Lemma Qltb_cut a b c :
Qltb a b = true -> Qltb a c = true \/ Qltb c b = true.
Proof.
rewrite !Qltb_lt. intros Hab.
destruct (Qlt_le_dec a c) as [H|H]; [left; exact H|].
right. eapply Qle_lt_trans; eauto.
Qed.

Lemma compare_trans sortBy sortOrder a b c :
compare sortBy sortOrder a b = true ->
compare sortBy sortOrder b c = true ->
compare sortBy sortOrder a c = true.
Proof.
unfold compare.
destruct (String.eqb sortBy "name"), (String.eqb sortBy "price"),
  (String.eqb sortOrder "desc");
  eauto using string_ltb_trans, Qltb_trans;
  rewrite !Z.ltb_lt; lia.
Qed.

Lemma compare_cut sortBy sortOrder a b c :
compare sortBy sortOrder a b = true ->
compare sortBy sortOrder a c = true \/ compare sortBy sortOrder c b = true.
Proof.
unfold compare.
destruct (String.eqb sortBy "name"), (String.eqb sortBy "price"),
  (String.eqb sortOrder "desc"); intros H;
  try (apply string_ltb_cut; exact H);
  try (apply or_comm; apply string_ltb_cut; exact H);
  try (apply Qltb_cut; exact H);
  try (apply or_comm; apply Qltb_cut; exact H);
  rewrite !Z.ltb_lt in *; lia.
Qed.

(** [sortProducts] only permutes its input. *)
Lemma sortProducts_perm products sortBy sortOrder :
Permutation (sortProducts products sortBy sortOrder) products.
Proof.
unfold sortProducts. destruct (length products <=? 1)%nat; [reflexivity|].
apply insertion_loop_perm. apply compare_trans.
Qed.

Lemma sortProducts_length products sortBy sortOrder :
length (sortProducts products sortBy sortOrder) = length products.
Proof. apply Permutation_length, sortProducts_perm. Qed.

(** Records that [compare] does not order keep their relative order:
  the sort is stable for the key it compares (the name, the price, or
  for every other sort field the creation time). *)
Lemma sortProducts_stable_compared_key products sortBy sortOrder x :
List.filter (same_key (compare sortBy sortOrder) x)
            (sortProducts products sortBy sortOrder)
= List.filter (same_key (compare sortBy sortOrder) x) products.
Proof.
unfold sortProducts. destruct (length products <=? 1)%nat; [reflexivity|].
apply insertion_loop_stable; [apply compare_trans | apply compare_cut].
Qed.

End sorting_facts.

(** ** The pipeline of the repository *)

Module pipeline_facts.
Import domain spec.

Lemma int32_small (x : Z) : (- 2 ^ 31 <= x < 2 ^ 31)%Z -> int32 x = x.
Proof.
  intros H. unfold int32.
  rewrite Z.mod_small by lia. lia.
Qed.

Lemma paginate_spec (products : list Product) (offset limit : Z) :
  (0 <= offset)%Z -> (0 <= limit)%Z ->
  repository.paginate products offset limit
  = Return (take (Z.to_nat limit) (drop (Z.to_nat offset) products)).
Proof.
  intros Ho Hl. unfold repository.paginate.
  destruct (offset <? Z.of_nat (length products))%Z eqn:Hlt.
  - apply Z.ltb_lt in Hlt. unfold slice_from.
    replace ((0 <=? offset)%Z && (offset <=? Z.of_nat (length products))%Z)
      with true
      by (symmetry; apply andb_true_iff; split; apply Z.leb_le; lia).
    cbn [go_bind].
    set (rest := drop (Z.to_nat offset) products).
    destruct (limit <? Z.of_nat (length rest))%Z eqn:Hlim.
    + apply Z.ltb_lt in Hlim. unfold slice_to.
      replace ((0 <=? limit)%Z && (limit <=? Z.of_nat (length rest))%Z)
        with true
        by (symmetry; apply andb_true_iff; split; apply Z.leb_le; lia).
      reflexivity.
    + apply Z.ltb_ge in Hlim. rewrite take_ge by lia. reflexivity.
  - apply Z.ltb_ge in Hlt. cbn [go_bind]. simpl length.
    rewrite drop_ge by lia. rewrite take_nil.
    destruct (limit <? Z.of_nat 0)%Z eqn:Hlim; [|reflexivity].
    apply Z.ltb_lt in Hlim. simpl in Hlim. lia.
Qed.

Lemma matches_scan_expression (r : repository.DynamoDBRepository) filters p :
  dynamodb.matches
    (dynamodb.FilterExpression (repository.scanInput r filters)) p
  = selects filters p.
Proof.
  unfold repository.scanInput, selects. cbn [dynamodb.FilterExpression].
  destruct (repository.any_filter filters) eqn:Hany; [reflexivity|].
  unfold repository.any_filter in Hany.
  apply orb_false_iff in Hany as [Hany Hmax].
  apply orb_false_iff in Hany as [Hname Hmin].
  unfold repository.conditions. rewrite Hname, Hmin, Hmax. reflexivity.
Qed.

Lemma matches_count_expression (r : repository.DynamoDBRepository) filters p :
  dynamodb.matches
    (dynamodb.FilterExpression (repository.countInput r filters)) p
  = selects filters p.
Proof.
  rewrite <- (matches_scan_expression r).
  unfold repository.countInput, repository.scanInput.
  cbn [dynamodb.FilterExpression].
  destruct (repository.any_filter filters); [|reflexivity].
  destruct (repository.conditions filters); reflexivity.
Qed.

Lemma filter_ext_eq {A : Type} (f g : A -> bool) (l : list A) :
  (forall x, f x = g x) -> List.filter f l = List.filter g l.
Proof. intros H. apply List.filter_ext. exact H. Qed.


Lemma filter_length_le {A : Type} (f : A -> bool) (l : list A) :
  (length (List.filter f l) <= length l)%nat.
Proof. apply List.filter_length_le. Qed.

Lemma Scan_ok input c scanned :
  dynamodb.fault c = None ->
  dynamodb.evaluated (dynamodb.table c) (dynamodb.Limit input) = Return scanned ->
  dynamodb.Scan input c
  = (Return
       {| dynamodb.Items :=
            match dynamodb.Select input with
            | dynamodb.SelectAllAttributes =>
                List.filter (dynamodb.matches (dynamodb.FilterExpression input)) scanned
            | dynamodb.SelectCount => []
            end;
          dynamodb.Count :=
            Z.of_nat (length (List.filter
                        (dynamodb.matches (dynamodb.FilterExpression input)) scanned));
          dynamodb.ScannedCount := Z.of_nat (length scanned) |},
     dynamodb.sent (dynamodb.OpScan input) c).
Proof.
  intros Hok Hev. unfold dynamodb.Scan. rewrite Hok, Hev. reflexivity.
Qed.

Lemma evaluated_limit items (n : Z) :
  (1 <= n)%Z ->
  dynamodb.evaluated items (Some n) = Return (take (Z.to_nat n) items).
Proof.
  intros Hn. unfold dynamodb.evaluated.
  destruct (n <? 1)%Z eqn:E; [apply Z.ltb_lt in E; lia | reflexivity].
Qed.

(** What [ListWithFilters] computes when the store answers: the first
    [Limit] items of the table are evaluated, the selected ones sorted
    and sliced; the count covers the whole table.  The repository sends
    its two Scan requests and nothing else. *)
Lemma ListWithFilters_spec (r : repository.DynamoDBRepository) filters c :
  dynamodb.fault c = None ->
  (1 <= ports.Limit filters <= 100)%Z ->
  (0 <= ports.Offset filters)%Z ->
  repository.ListWithFilters r filters c
  = (Return
      {| ports.Products :=
           take (Z.to_nat (ports.Limit filters))
             (drop (Z.to_nat (ports.Offset filters))
                (sorting.sortProducts
                   (List.filter (selects filters)
                      (take (Z.to_nat (ports.Limit filters)) (dynamodb.table c)))
                   (ports.SortBy filters) (ports.SortOrder filters)));
         ports.TotalItems :=
           Z.of_nat (length (List.filter (selects filters) (dynamodb.table c))) |},
     dynamodb.sent (dynamodb.OpScan (repository.countInput r filters))
       (dynamodb.sent (dynamodb.OpScan (repository.scanInput r filters)) c)).
Proof.
  intros Hok Hlim Hoff.
  unfold repository.ListWithFilters, repository.getTotalCount.
  rewrite (Scan_ok (repository.scanInput r filters) c
             (take (Z.to_nat (ports.Limit filters)) (dynamodb.table c)) Hok).
  2:{ cbn [repository.scanInput dynamodb.Limit].
      rewrite int32_small by lia. apply evaluated_limit. lia. }
  rewrite (Scan_ok (repository.countInput r filters) _ (dynamodb.table c)).
  2:{ exact Hok. }
  2:{ reflexivity. }
  cbn [dynamodb.Items dynamodb.Count dynamodb.Select repository.scanInput].
  rewrite paginate_spec by lia.
  cbn [go_bind].
  rewrite (filter_ext_eq _ (selects filters) (take _ _))
    by (intros p; apply (matches_scan_expression r)).
  rewrite (filter_ext_eq _ (selects filters) (dynamodb.table c))
    by (intros p; apply (matches_count_expression r)).
  reflexivity.
Qed.

End pipeline_facts.

(** ** Binding and the handler *)

Module float64_facts.

Lemma nearest_even_bounds (n d : Z) :
  (0 < d)%Z ->
  (- d <= 2 * (float64.nearest_even n d * d - n) <= d)%Z.
Proof.
  intros Hd. unfold float64.nearest_even.
  pose proof (Z.div_mod n d ltac:(lia)) as Hdm.
  pose proof (Z.mod_pos_bound n d Hd) as Hb.
  destruct (Z.compare_spec (2 * (n mod d)) d) as [E|E|E]; cbv zeta.
  - destruct (Z.even (n / d)); nia.
  - nia.
  - nia.
Qed.

Lemma exponent_le (n d : Z) :
  (float64.exponent n d <= Z.log2 n - Z.log2 d)%Z.
Proof.
  unfold float64.exponent.
  destruct (0 <=? Z.log2 n - Z.log2 d)%Z;
    [destruct (d * 2 ^ (Z.log2 n - Z.log2 d) <=? n)%Z
    |destruct (d <=? n * 2 ^ (- (Z.log2 n - Z.log2 d)))%Z]; lia.
Qed.

Lemma log2_below (z : Z) : (0 < z < 2 ^ 53)%Z -> (Z.log2 z <= 52)%Z.
Proof.
  intros H. assert (Z.log2 z < 53)%Z; [|lia].
  apply Z.log2_lt_pow2; lia.
Qed.

Lemma Qred_inject_Z (z : Z) : Qred (inject_Z z) = inject_Z z.
Proof.
  unfold Qred, inject_Z.
  pose proof (Z.ggcd_gcd z 1) as Hg.
  pose proof (Z.ggcd_correct_divisors z 1) as Hd.
  destruct (Z.ggcd z 1) as (g, (aa, bb)). cbn [fst snd] in *.
  rewrite Z.gcd_1_r in Hg. subst g. destruct Hd as [Ha Hb].
  assert (Hz : aa = z) by lia. assert (Hone : bb = 1%Z) by lia.
  rewrite Hz, Hone. reflexivity.
Qed.

Lemma Qred_scaled (z P : Z) :
  (0 < P)%Z -> Qred (Qmake (z * P) (Z.to_pos P)) = inject_Z z.
Proof.
  intros HP.
  transitivity (Qred (inject_Z z)); [|apply Qred_inject_Z].
  apply Qred_complete. unfold Qeq, inject_Z. cbn [Qnum Qden].
  rewrite Z2Pos.id by exact HP. ring.
Qed.

(** An integer below 2^53 in magnitude converts to itself. *)
Lemma round_int (z : Z) :
  (Z.abs z < 2 ^ 53)%Z -> float64.round z 1 = inject_Z z.
Proof.
  intros Hz. unfold float64.round.
  destruct (Z.eqb_spec z 0) as [->|Hne]; [reflexivity|].
  pose proof (exponent_le (Z.abs z) 1) as He.
  pose proof (log2_below (Z.abs z) ltac:(lia)) as Hl.
  change (Z.log2 1) with 0%Z in He.
  set (s := (52 - float64.exponent (Z.abs z) 1)%Z) in *.
  assert (Hs : (0 <= s)%Z) by lia.
  apply Z.leb_le in Hs as Hs'. rewrite Hs'.
  assert (Hn : float64.nearest_even (z * 2 ^ s) 1 = (z * 2 ^ s)%Z).
  { unfold float64.nearest_even. rewrite Z.mod_1_r, Z.div_1_r. reflexivity. }
  rewrite Hn. apply Qred_scaled. apply Z.pow_pos_nonneg; lia.
Qed.

(** Rounding [t / l] to a multiple of [1 / P] with [l < 2 * P] does not
    move it across an integer. *)
Lemma ceiling_of_rounded (t l P : Z) :
  (0 <= t)%Z -> (0 < l)%Z -> (0 < P)%Z -> (l < 2 * P)%Z ->
  (- ((- float64.nearest_even (t * P) l) / P) = - ((- t) / l))%Z.
Proof.
  intros Ht Hl HP H2.
  pose proof (nearest_even_bounds (t * P) l Hl) as Hm.
  set (m := float64.nearest_even (t * P) l) in *.
  pose proof (Z.div_mod (- t) l ltac:(lia)) as Hdm.
  pose proof (Z.mod_pos_bound (- t) l Hl) as Hb.
  set (c := (- ((- t) / l))%Z) in *.
  assert (Hc : ((c - 1) * l < t <= c * l)%Z) by (subst c; nia).
  assert (Hup : (m <= c * P)%Z) by nia.
  assert (Hlo : ((c - 1) * P < m)%Z) by nia.
  assert (E : (- m / P = - c)%Z).
  { symmetry. apply (Z.div_unique_pos (- m) P (- c) (c * P - m)); nia. }
  rewrite E. lia.
Qed.

End float64_facts.

Module handler_facts.
Import spec.

Lemma run_tags_one field tag ok :
  binding.run_tags field [(tag, ok)] = [] -> ok = true.
Proof. simpl. destruct ok; [reflexivity | discriminate]. Qed.

Lemma run_tags_two field tag1 ok1 tag2 ok2 :
  binding.run_tags field [(tag1, ok1); (tag2, ok2)] = [] ->
  ok1 = true /\ ok2 = true.
Proof. simpl. destruct ok1, ok2; try discriminate. auto. Qed.

Lemma omitempty_nil v field tag ok :
  binding.omitempty v (binding.run_tags field [(tag, ok)]) = [] ->
  v = "" \/ ok = true.
Proof.
  unfold binding.omitempty.
  destruct (String.eqb v "") eqn:E.
  - apply String.eqb_eq in E. auto.
  - intros H. right. eapply run_tags_one; eauto.
Qed.

Lemma validate_nil r : binding.validate r = [] -> bound r.
Proof.
  unfold binding.validate. intros H.
  repeat (apply app_eq_nil in H; destruct H as [?H H]).
  apply run_tags_one in H0. apply run_tags_two in H1 as [H1a H1b].
  apply run_tags_one in H2. apply run_tags_one in H3.
  apply omitempty_nil in H4. apply omitempty_nil in H.
  constructor.
  - apply Z.leb_le; assumption.
  - split; apply Z.leb_le; assumption.
  - apply Qle_bool_iff; assumption.
  - apply Qle_bool_iff; assumption.
  - assumption.
  - assumption.
Qed.

Lemma ShouldBindQuery_inv q r :
  binding.ShouldBindQuery q = Return r ->
  binding.mapForm q = Return r /\ bound r.
Proof.
  unfold binding.ShouldBindQuery.
  destruct (binding.mapForm q) as [r'| |]; cbn [go_bind]; try discriminate.
  destruct (binding.validate r') eqn:Hv; try discriminate.
  intros [= ->]. split; [reflexivity | apply validate_nil; exact Hv].
Qed.

Lemma mapForm_inv q r :
  binding.mapForm q = Return r ->
  binding.set_field 0%Z (binding.page q) = Return (dto.Page r) /\
  binding.set_field 0%Z (binding.limit q) = Return (dto.Limit r) /\
  binding.set_field 0%Q (binding.min_price q) = Return (dto.MinPrice r) /\
  binding.set_field 0%Q (binding.max_price q) = Return (dto.MaxPrice r) /\
  dto.Name r = binding.set_string (binding.name q) /\
  dto.SortBy r = binding.set_string (binding.sort_by q) /\
  dto.SortOrder r = binding.set_string (binding.sort_order q) /\
  dto.Fields r = binding.set_string (binding.fields q).
Proof.
  unfold binding.mapForm.
  destruct (binding.set_field 0%Z (binding.page q)); cbn [go_bind]; try discriminate.
  destruct (binding.set_field 0%Z (binding.limit q)); cbn [go_bind]; try discriminate.
  destruct (binding.set_field 0%Q (binding.min_price q)); cbn [go_bind]; try discriminate.
  destruct (binding.set_field 0%Q (binding.max_price q)); cbn [go_bind]; try discriminate.
  intros [= <-]. cbn. repeat split; reflexivity.
Qed.

(** On a struct that passed the validator, [SetDefaults] can only fill
    in the two sort fields. *)
Lemma SetDefaults_bound r :
  bound r ->
  dto.Page (dto.SetDefaults r) = dto.Page r /\
  dto.Limit (dto.SetDefaults r) = dto.Limit r.
Proof.
  intros [Hp Hl _ _ _ _]. unfold dto.SetDefaults. cbn.
  destruct (dto.Page r <=? 0)%Z eqn:E1; [apply Z.leb_le in E1; lia|].
  destruct (dto.Limit r <=? 0)%Z eqn:E2; [apply Z.leb_le in E2; lia|].
  auto.
Qed.

(** The exact ceiling of a quotient of integers. *)
Lemma Qceiling_div (t l : Z) :
  (0 < l)%Z ->
  Qceiling (inject_Z t / inject_Z l) = (- ((- t) / l))%Z.
Proof.
  intros Hl.
  destruct l as [|p|p]; try lia.
  unfold Qceiling, Qfloor, Qdiv, Qinv, Qmult, Qopp, inject_Z.
  cbn. rewrite Z.mul_1_r. reflexivity.
Qed.

(** Below 2^53 the conversions to [float64] are exact, and the rounded
    quotient lies on the same side of every integer as the exact one:
    [total_pages] is the ceiling of the exact quotient. *)
Lemma total_pages_div (t l : Z) :
  (0 <= t < 2 ^ 53)%Z -> (1 <= l < 2 ^ 53)%Z ->
  handler.total_pages t l = (- ((- t) / l))%Z.
Proof.
  intros Ht Hl. unfold handler.total_pages, float64.of_int.
  rewrite !float64_facts.round_int by lia.
  unfold float64.div. cbn [Qnum Qden inject_Z].
  destruct l as [|p|p]; try lia.
  rewrite Z.mul_1_r, Z.mul_1_l.
  unfold float64.Ceil. cbn [option_map]. unfold float64.round.
  destruct (Z.eqb_spec t 0) as [->|Hne]; [reflexivity|].
  rewrite Z.abs_eq by lia.
  pose proof (float64_facts.exponent_le t (Z.pos p)) as He.
  pose proof (float64_facts.log2_below t ltac:(lia)) as Hlt.
  pose proof (Z.log2_nonneg (Z.pos p)) as Hl0.
  set (s := (52 - float64.exponent t (Z.pos p))%Z) in *.
  assert (Hs : (0 <= s)%Z) by lia.
  apply Z.leb_le in Hs as Hs'. rewrite Hs'.
  assert (HP : (0 < 2 ^ s)%Z) by (apply Z.pow_pos_nonneg; lia).
  assert (H2 : (Z.pos p < 2 * 2 ^ s)%Z).
  { destruct (Z.log2_spec (Z.pos p) ltac:(lia)) as [_ Hup].
    rewrite <- Z.pow_succ_r by lia.
    eapply Z.lt_le_trans; [exact Hup|].
    apply Z.pow_le_mono_r; lia. }
  pose proof (float64_facts.ceiling_of_rounded t (Z.pos p) (2 ^ s)%Z
                ltac:(lia) ltac:(lia) HP H2) as Hceil.
  set (m := float64.nearest_even (t * 2 ^ s) (Z.pos p)) in *.
  unfold float64.to_int.
  rewrite (Qceiling_comp _ _ (Qred_correct _)).
  assert (Hq : Qceiling (m # Z.to_pos (2 ^ s)) = (- ((- m) / 2 ^ s))%Z).
  { unfold Qceiling, Qfloor, Qopp. cbn [Qnum Qden].
    rewrite Z2Pos.id by exact HP. reflexivity. }
  rewrite Hq, Hceil. cbn [inject_Z Qnum Qden].
  rewrite Z.quot_1_r.
  pose proof (Z.div_mod (- t) (Z.pos p) ltac:(lia)) as Hdm.
  pose proof (Z.mod_pos_bound (- t) (Z.pos p) ltac:(lia)) as Hb.
  assert (Hr : (0 <= - ((- t) / Z.pos p) <= t)%Z) by nia.
  destruct (Z.leb_spec (- 2 ^ 63) (- ((- t) / Z.pos p)));
    destruct (Z.ltb_spec (- ((- t) / Z.pos p)) (2 ^ 63)); cbn; lia.
Qed.

(** The ceiling of [t / l]: the least number of pages of [l] items that
    holds [t] items. *)
Lemma total_pages_spec (t l : Z) :
  (0 <= t < 2 ^ 53)%Z -> (1 <= l < 2 ^ 53)%Z ->
  (t <= handler.total_pages t l * l < t + l)%Z.
Proof.
  intros Ht Hl. rewrite total_pages_div by assumption.
  pose proof (Z.div_mod (- t) l ltac:(lia)) as Hdm.
  pose proof (Z.mod_pos_bound (- t) l ltac:(lia)) as Hb.
  nia.
Qed.

Section Handler.
Context {S : Type}.
Variable svc : ports.ProductFilters -> S -> go ports.ProductListResult * S.

(** A 200 answer comes from exactly one path through [List]. *)
Lemma List_ok_inv q st response st' :
  handler.List svc q st
  = ({| handler.Status := handler.StatusOK;
        handler.Payload := handler.ListBody response |}, st') ->
  exists r result,
    binding.ShouldBindQuery q = Return r /\
    (dto.Page (dto.SetDefaults r) <= 1000)%Z /\
    svc (handler.filters_of (dto.SetDefaults r)) st = (Return result, st') /\
    response = handler.response_of (dto.SetDefaults r) result.
Proof.
  unfold handler.List.
  destruct (binding.ShouldBindQuery q) as [r| |]; try discriminate.
  cbn zeta.
  destruct (1000 <? dto.Page (dto.SetDefaults r))%Z eqn:Hp; try discriminate.
  destruct (Qltb 0 (dto.MinPrice (dto.SetDefaults r))
            && Qltb 0 (dto.MaxPrice (dto.SetDefaults r))
            && Qltb (dto.MaxPrice (dto.SetDefaults r))
                    (dto.MinPrice (dto.SetDefaults r))); try discriminate.
  destruct (svc (handler.filters_of (dto.SetDefaults r)) st)
    as [[result| |] st1] eqn:Hsvc; try discriminate.
  intros [= <- <-]. exists r, result.
  apply Z.ltb_ge in Hp. repeat split; auto.
Qed.


End Handler.

End handler_facts.

(** * The claims *)

(** Supporting fact for C1: the primary Scan evaluates at most [Limit]
    items, so every page after the first is empty, whatever the table
    holds. *)
Lemma later_pages_are_empty (r : repository.DynamoDBRepository) filters c :
  dynamodb.fault c = None ->
  (1 <= ports.Limit filters <= 100)%Z ->
  (ports.Limit filters <= ports.Offset filters)%Z ->
  exists total,
    fst (repository.ListWithFilters r filters c)
    = Return {| ports.Products := []; ports.TotalItems := total |}.
Proof.
  intros Hok Hlim Hoff.
  rewrite pipeline_facts.ListWithFilters_spec by (try assumption; lia).
  eexists. cbn [fst]. f_equal. f_equal.
  rewrite drop_ge; [apply take_nil|].
  rewrite sorting_facts.sortProducts_length.
  etransitivity; [apply pipeline_facts.filter_length_le|].
  rewrite length_take. lia.
Qed.

(** C1 (the code departs from the claim).  The store holds "plain",
    "box", "wax" in scan order; the request is page 1 with page size 1
    and name filter "x".  Two records match and the first page of the
    full filtered, sorted set would hold one of them; the primary Scan
    is capped at the page size, evaluates "plain" alone, and the page
    comes back empty with totalItems = 2. *)
Theorem C1_primary_scan_capped_at_page_size :
  fst (repository.ListWithFilters productRepo samples.filters_x samples.store_x)
  = Return {| ports.Products := []; ports.TotalItems := 2 |}
  /\ List.filter (spec.selects samples.filters_x)
       (dynamodb.table samples.store_x)
     = [samples.box; samples.wax].
Proof. split; vm_compute; reflexivity. Qed.

(** C2 (the code departs from the claim).  Sorting A (price 10.99,
    created first) and B (price 20.99) by price ascending returns B
    before A, and sorting them by creation time descending returns A
    before B: the loop moves a record left past records that compare
    less, so each direction yields the opposite order.  On three
    records the result is ordered in neither direction, and sorting by
    updated_at compares creation times. *)
Theorem C2_sort_order_not_as_requested :
  sorting.sortProducts [samples.productA; samples.productB] "price" "asc"
  = [samples.productB; samples.productA]
  /\ sorting.sortProducts [samples.productB; samples.productA] "created_at" "desc"
     = [samples.productA; samples.productB]
  /\ sorting.sortProducts
       [samples.productA; samples.productB; samples.productC] "price" "asc"
     = [samples.productB; samples.productC; samples.productA]
  /\ sorting.sortProducts [samples.productA; samples.productB] "name" "desc"
     = [samples.productA; samples.productB].
Proof. repeat split; vm_compute; reflexivity. Qed.

(** C3 (the code departs from the claim).  [early] and [late] have the
    same updatedAt; sorted by updated_at they leave in the opposite
    order, because the comparison for that field reads createdAt. *)
Theorem C3_equal_updated_at_reordered :
  domain.UpdatedAt samples.early = domain.UpdatedAt samples.late
  /\ sorting.sortProducts [samples.early; samples.late] "updated_at" "asc"
     = [samples.late; samples.early].
Proof. split; vm_compute; reflexivity. Qed.

(** C4.  Every 200 answer of the list handler comes from a request
    that gives a page in 1..1000 and a page size in 1..100, and from
    the result of the service called with that page size and with the
    offset (page - 1) * pageSize.  Its pagination block carries that
    page, that page size and the total of the result; hasNext holds
    exactly when page * pageSize < totalItems and hasPrev exactly when
    page > 1; and for every total from 0 up to 2^53 (a count of the
    store is a 32-bit integer) totalPages is the ceiling of
    totalItems / pageSize. *)
Theorem C4_pagination_metadata {S : Type}
    (svc : ports.ProductFilters -> S -> go ports.ProductListResult * S)
    (q : binding.Query) (st st' : S) (response : dto.ListProductsResponse) :
  handler.List svc q st
  = ({| handler.Status := handler.StatusOK;
        handler.Payload := handler.ListBody response |}, st') ->
  exists page limit filters result,
    binding.page q = binding.Parsed page /\
    binding.limit q = binding.Parsed limit /\
    (1 <= page <= 1000)%Z /\
    (1 <= limit <= 100)%Z /\
    ports.Offset filters = ((page - 1) * limit)%Z /\
    ports.Limit filters = limit /\
    svc filters st = (Return result, st') /\
    let p := dto.Pagination response in
    dto.CurrentPage p = page /\
    dto.PerPage p = limit /\
    dto.TotalItems p = ports.TotalItems result /\
    (dto.HasNext p = true <-> (page * limit < ports.TotalItems result)%Z) /\
    (dto.HasPrev p = true <-> (1 < page)%Z) /\
    ((0 <= ports.TotalItems result < 2 ^ 53)%Z ->
     dto.TotalPages p
     = Qceiling (inject_Z (ports.TotalItems result) / inject_Z limit)).
Proof.
  intros Hrun.
  apply handler_facts.List_ok_inv in Hrun
    as (r & result & Hbind & Hpage & Hsvc & ->).
  apply handler_facts.ShouldBindQuery_inv in Hbind as [Hmap Hb].
  destruct (handler_facts.SetDefaults_bound r Hb) as [HP HL].
  apply handler_facts.mapForm_inv in Hmap as (Hqp & Hql & _).
  destruct Hb as [Hp Hl _ _ _ _].
  exists (dto.Page r), (dto.Limit r),
    (handler.filters_of (dto.SetDefaults r)), result.
  split.
  { destruct (binding.page q) as [|a|e]; cbn in Hqp;
      [injection Hqp as Hz; lia | congruence | discriminate]. }
  split.
  { destruct (binding.limit q) as [|a|e]; cbn in Hql;
      [injection Hql as Hz; lia | congruence | discriminate]. }
  rewrite HP in Hpage.
  split; [lia|]. split; [lia|].
  split.
  { cbn [handler.filters_of ports.Offset]. unfold dto.GetOffset.
    rewrite HP, HL. reflexivity. }
  split; [cbn [handler.filters_of ports.Limit]; exact HL|].
  split; [exact Hsvc|].
  cbn [handler.response_of dto.Pagination handler.pagination_of
       dto.TotalItems dto.CurrentPage dto.PerPage dto.TotalPages
       dto.HasNext dto.HasPrev].
  rewrite HP, HL.
  split; [reflexivity|]. split; [reflexivity|]. split; [reflexivity|].
  split; [apply Z.ltb_lt|]. split; [apply Z.ltb_lt|].
  intros Htotal.
  rewrite handler_facts.total_pages_div by lia.
  symmetry. apply handler_facts.Qceiling_div. lia.
Qed.

Lemma C4_pagination_metadata_witness :
  let svc := services.ListWithFilters (repository.as_port productRepo) in
  let out := handler.List svc samples.query_first_page samples.store_AB in
  exists response,
    out = ({| handler.Status := handler.StatusOK;
              handler.Payload := handler.ListBody response |}, snd out) /\
    dto.Pagination response
    = {| dto.CurrentPage := 1; dto.PerPage := 20; dto.TotalItems := 2;
         dto.TotalPages := 1; dto.HasNext := false; dto.HasPrev := false |} /\
    exists page limit,
      binding.page samples.query_first_page = binding.Parsed page /\
      binding.limit samples.query_first_page = binding.Parsed limit /\
      dto.CurrentPage (dto.Pagination response) = page /\
      dto.PerPage (dto.Pagination response) = limit.
Proof.
  intros svc out.
  pose (response :=
          handler.response_of (samples.bound_request 1 20 0 0)
            {| ports.Products := [samples.productA; samples.productB];
               ports.TotalItems := 2 |}).
  assert (H1 : out = ({| handler.Status := handler.StatusOK;
                         handler.Payload := handler.ListBody response |},
                      snd out))
    by (vm_compute; reflexivity).
  exists response. split; [exact H1|].
  split; [vm_compute; reflexivity|].
  destruct (C4_pagination_metadata svc samples.query_first_page
              samples.store_AB (snd out) response H1)
    as (page & limit & filters & result & Hp & Hl & _ & _ & _ & _ & _
        & Hcp & Hpp & _).
  exists page, limit. repeat split; assumption.
Defined.

(** What [selects] means: the name filter and each price bound count
    only when the request gave them (a non-empty name, a bound above
    zero); a bound is the request's value rounded to two decimals. *)
Lemma selects_meaning filters p :
  spec.selects filters p
  = (String.eqb (ports.Name filters) ""
     || dynamodb.contains (domain.Name p) (ports.Name filters))
    && (negb (Qltb 0 (ports.MinPrice filters))
        || Qle_bool (repository.Sprintf_2f (ports.MinPrice filters)) (domain.Price p))
    && (negb (Qltb 0 (ports.MaxPrice filters))
        || Qle_bool (domain.Price p) (repository.Sprintf_2f (ports.MaxPrice filters))).
Proof.
  unfold spec.selects, repository.conditions.
  destruct (String.eqb (ports.Name filters) "");
    destruct (Qltb 0 (ports.MinPrice filters));
    destruct (Qltb 0 (ports.MaxPrice filters));
    cbn;
    repeat match goal with
           | |- context [dynamodb.contains ?a ?b] => destruct (dynamodb.contains a b)
           | |- context [Qle_bool ?a ?b] => destruct (Qle_bool a b)
           end; reflexivity.
Qed.

(** *** The repository's filter and the filter of the specification *)









(** C10.  For every list, every offset >= 0 and every limit >= 0 the
    slicing block returns a page and does not panic: the page is the
    part of the list from [offset] on, cut to [limit] items, so it has
    at most [limit] items. *)
Theorem C10_pagination_in_bounds (products : list domain.Product)
    (offset limit : Z) :
  (0 <= offset)%Z -> (0 <= limit)%Z ->
  exists page,
    repository.paginate products offset limit = Return page /\
    page = take (Z.to_nat limit) (drop (Z.to_nat offset) products) /\
    (Z.of_nat (length page) <= limit)%Z.
Proof.
  intros Ho Hl. eexists. split; [apply pipeline_facts.paginate_spec; lia|].
  split; [reflexivity|].
  rewrite length_take. lia.
Qed.

Lemma C10_pagination_in_bounds_witness :
  (0 <= 1)%Z /\ (0 <= 1)%Z /\
  exists page,
    repository.paginate [samples.productA; samples.productB; samples.productC] 1 1
    = Return page /\
    page = take (Z.to_nat 1) (drop (Z.to_nat 1)
             [samples.productA; samples.productB; samples.productC]) /\
    (Z.of_nat (length page) <= 1)%Z.
Proof.
  assert (H : (0 <= 1)%Z) by lia.
  split; [exact H|]. split; [exact H|].
  exact (C10_pagination_in_bounds
           [samples.productA; samples.productB; samples.productC] 1 1 H H).
Defined.

Lemma mapForm_no_panic q msg : binding.mapForm q <> Panic msg.
Proof.
  unfold binding.mapForm.
  destruct (binding.page q), (binding.limit q),
    (binding.min_price q), (binding.max_price q); cbn; discriminate.
Qed.





(** Supporting fact for C7: a request without page and limit does not
    pass binding either, since the "min" tag of both fields runs on the
    zero value; [SetDefaults] is not reached. *)
Lemma absent_page_and_limit_are_rejected :
  list_products
    {| binding.page := binding.Absent; binding.limit := binding.Absent;
       binding.name := None;
       binding.min_price := binding.Absent; binding.max_price := binding.Absent;
       binding.sort_by := None; binding.sort_order := None;
       binding.fields := None |}
    samples.store_AB
  = (handler.bad_request "invalid query parameters"
       (Some (binding.join binding.newline
                [binding.field_error "Page" "min";
                 binding.field_error "Limit" "min"])),
     samples.store_AB).
Proof. vm_compute. reflexivity. Qed.

(** C7, counterexample.  The requests [page=0&limit=20] and
    [page=abc&limit=20] are rejected with status 400; the page is not
    defaulted to 1 and the store is not consulted. *)
Lemma C7_page_not_defaulted :
  list_products samples.query_page_zero samples.store_AB
  = (handler.bad_request "invalid query parameters"
       (Some "Key: 'ListProductsRequest.Page' Error:Field validation for 'Page' failed on the 'min' tag"),
     samples.store_AB)
  /\ list_products samples.query_page_abc samples.store_AB
     = (handler.bad_request "invalid query parameters"
          (Some (samples.invalid_syntax "abc")),
        samples.store_AB).
Proof. split; vm_compute; reflexivity. Qed.

(** C7, amended.  A page parameter that is present and does not convert
    to an integer of at least 1 is rejected as invalid query parameters
    before any service call.  For a request that passes binding, an
    absent sort field becomes created_at and an absent sort direction
    becomes desc in the filters handed to the service.  [SetDefaults]
    itself replaces a non-positive page by 1, a non-positive limit by
    20, an empty sort field by created_at and an empty direction by
    desc. *)
Theorem C7_defaults_amended :
  (forall (S : Type)
          (svc : ports.ProductFilters -> S -> go ports.ProductListResult * S)
          (q : binding.Query) (st : S),
      spec.page_not_positive q ->
      exists details,
        handler.List svc q st
        = (handler.bad_request "invalid query parameters" (Some details), st)) /\
  (forall q r,
      binding.ShouldBindQuery q = Return r ->
      (binding.sort_by q = None ->
       ports.SortBy (handler.filters_of (dto.SetDefaults r)) = "created_at") /\
      (binding.sort_order q = None ->
       ports.SortOrder (handler.filters_of (dto.SetDefaults r)) = "desc")) /\
  (forall r,
      ((dto.Page r <= 0)%Z -> dto.Page (dto.SetDefaults r) = 1%Z) /\
      ((dto.Limit r <= 0)%Z -> dto.Limit (dto.SetDefaults r) = 20%Z) /\
      (dto.SortBy r = "" -> dto.SortBy (dto.SetDefaults r) = "created_at") /\
      (dto.SortOrder r = "" -> dto.SortOrder (dto.SetDefaults r) = "desc")).
Proof.
  split; [|split].
  - intros S svc q st Hpage.
    unfold handler.List, binding.ShouldBindQuery.
    destruct (binding.mapForm q) as [r|e|m] eqn:Hmap; cbn [go_bind].
    + apply handler_facts.mapForm_inv in Hmap as (Hp & _).
      destruct (binding.validate r) eqn:Hval; [|eexists; reflexivity].
      exfalso. apply handler_facts.validate_nil in Hval.
      destruct Hval as [Hge _ _ _ _ _].
      destruct Hpage as [[err Herr]|[n [Hn Hlt]]];
        rewrite ?Herr, ?Hn in Hp; cbn in Hp; [discriminate|].
      injection Hp as Hp. lia.
    + eexists. reflexivity.
    + exfalso. exact (mapForm_no_panic q m Hmap).
  - intros q r Hbind.
    apply handler_facts.ShouldBindQuery_inv in Hbind as [Hmap _].
    apply handler_facts.mapForm_inv in Hmap
      as (_ & _ & _ & _ & _ & Hby & Horder & _).
    split; intros Habsent; cbn; [rewrite Hby | rewrite Horder];
      rewrite Habsent; reflexivity.
  - intros r. unfold dto.SetDefaults. cbn.
    repeat split.
    + intros H. apply Z.leb_le in H. rewrite H. reflexivity.
    + intros H. apply Z.leb_le in H. rewrite H. reflexivity.
    + intros ->. reflexivity.
    + intros ->. reflexivity.
Qed.

Lemma C7_defaults_amended_witness :
  spec.page_not_positive samples.query_page_abc /\
  (exists details,
      list_products samples.query_page_abc samples.store_AB
      = (handler.bad_request "invalid query parameters" (Some details),
         samples.store_AB)) /\
  binding.ShouldBindQuery samples.query_first_page
  = Return (samples.bound_request 1 20 0 0) /\
  ports.SortBy (handler.filters_of
                  (dto.SetDefaults (samples.bound_request 1 20 0 0)))
  = "created_at" /\
  dto.Page (dto.SetDefaults (samples.bound_request 0 0 0 0)) = 1%Z.
Proof.
  assert (H1 : spec.page_not_positive samples.query_page_abc)
    by (left; eexists; reflexivity).
  assert (H2 : binding.ShouldBindQuery samples.query_first_page
               = Return (samples.bound_request 1 20 0 0))
    by (vm_compute; reflexivity).
  split; [exact H1|]. split; [|split; [exact H2|split]].
  - exact (proj1 C7_defaults_amended _
             (services.ListWithFilters (repository.as_port productRepo))
             samples.query_page_abc samples.store_AB H1).
  - exact (proj1 (proj1 (proj2 C7_defaults_amended) _ _ H2) eq_refl).
  - refine (proj1 (proj2 (proj2 C7_defaults_amended)
                     (samples.bound_request 0 0 0 0)) _).
    simpl. lia.
Defined.

(** [Save] on a store that answers: the item carries the attributes
    [ID], [Name], ... and no [id], so the store refuses it and the table
    stays as it was. *)
Lemma Save_refused (product : domain.Product) (c : dynamodb.Client) :
  dynamodb.fault c = None ->
  repository.Save product c
  = (Fail dynamodb.missing_key,
     dynamodb.sent (dynamodb.OpPutItem (dynamodb.MarshalMap product)) c).
Proof.
  intros Hok. unfold repository.Save, dynamodb.PutItem. rewrite Hok.
  reflexivity.
Qed.

Lemma Save_keeps_table (product : domain.Product) (c : dynamodb.Client) :
  dynamodb.table (snd (repository.Save product c)) = dynamodb.table c.
Proof.
  unfold repository.Save, dynamodb.PutItem.
  destruct (dynamodb.fault c); reflexivity.
Qed.

Lemma Create_answer (now : Z) (uuid name description : string) (price : Q)
    (c : dynamodb.Client) :
  dynamodb.fault c = None ->
  name <> "" -> (0 <= price)%Q ->
  let product :=
    {| domain.ID := uuid; domain.Name := name;
       domain.Description := description; domain.Price := price;
       domain.CreatedAt := now; domain.UpdatedAt := now |} in
  services.Create productService now uuid name description price c
  = (Fail dynamodb.missing_key,
     dynamodb.sent (dynamodb.OpPutItem (dynamodb.MarshalMap product)) c).
Proof.
  intros Hok Hname Hprice product.
  unfold services.Create, domain.NewProduct, productService.
  apply String.eqb_neq in Hname. apply Qltb_ge in Hprice.
  rewrite Hname, Hprice. fold product.
  cbn [repository.as_port ports.Save].
  rewrite (Save_refused product c Hok). reflexivity.
Qed.

(** C8 (the code departs from the claim).  With an empty name or a
    negative price, [Create] returns the invalid-product error and the
    store state it was given, for every repository: [Save] is not
    called.  With a non-empty name and a non-negative price the factory
    returns a product whose createdAt equals its updatedAt, but the
    creation does not succeed: the repository of the application
    marshals the product under its Go field names, the item has no
    attribute [id], and on a store that answers [Create] returns the
    store's refusal of the one put request it sent; the table is as it
    was. *)
Theorem C8_valid_creation_is_refused :
  (forall (S : Type) (repo : ports.ProductRepository S) (now : Z)
          (uuid name description : string) (price : Q) (st : S),
      name = "" \/ (price < 0)%Q ->
      services.Create repo now uuid name description price st
      = (Fail domain.ErrInvalidProduct, st)) /\
  (forall (now : Z) (uuid name description : string) (price : Q)
          (c : dynamodb.Client),
      name <> "" -> (0 <= price)%Q -> dynamodb.fault c = None ->
      exists product,
        domain.NewProduct now uuid name description price = Return product /\
        domain.CreatedAt product = domain.UpdatedAt product /\
        dynamodb.attribute dynamodb.key_name (dynamodb.MarshalMap product)
        = None /\
        services.Create productService now uuid name description price c
        = (Fail dynamodb.missing_key,
           dynamodb.sent
             (dynamodb.OpPutItem (dynamodb.MarshalMap product)) c)) /\
  (let out := services.Create productService 7000 "uuid-1"
                "Lamp" "desk lamp" (25 # 2) samples.store_AB in
   fst out = Fail dynamodb.missing_key /\
   dynamodb.table (snd out) = dynamodb.table samples.store_AB).
Proof.
  split; [|split].
  - intros S repo now uuid name description price st Hbad.
    unfold services.Create, domain.NewProduct.
    destruct (String.eqb name "") eqn:Hname; [reflexivity|].
    destruct Hbad as [->|Hneg]; [discriminate|].
    apply Qltb_lt in Hneg. rewrite Hneg. reflexivity.
  - intros now uuid name description price c Hname Hprice Hok.
    apply String.eqb_neq in Hname. apply Qltb_ge in Hprice.
    eexists. unfold services.Create, domain.NewProduct.
    rewrite Hname, Hprice.
    split; [reflexivity|]. split; [reflexivity|]. split; [reflexivity|].
    unfold productService. cbn [repository.as_port ports.Save].
    rewrite Save_refused by exact Hok. reflexivity.
  - split; vm_compute; reflexivity.
Qed.

Lemma C8_valid_creation_is_refused_witness :
  (services.Create productService 7000 "uuid-1" "" "no name" 5
     samples.store_AB
   = (Fail domain.ErrInvalidProduct, samples.store_AB))
  /\ (services.Create productService 7000 "uuid-1" "Lamp" "desk lamp" (-1)
        samples.store_AB
      = (Fail domain.ErrInvalidProduct, samples.store_AB))
  /\ exists product,
       domain.NewProduct 7000 "uuid-1" "Lamp" "desk lamp" 0 = Return product /\
       domain.CreatedAt product = domain.UpdatedAt product /\
       services.Create productService 7000 "uuid-1" "Lamp" "desk lamp" 0
         samples.store_AB
       = (Fail dynamodb.missing_key,
          dynamodb.sent
            (dynamodb.OpPutItem (dynamodb.MarshalMap product))
            samples.store_AB).
Proof.
  split; [|split].
  - refine (proj1 C8_valid_creation_is_refused _ productService 7000%Z
              "uuid-1" "" "no name" 5%Q samples.store_AB _).
    left. reflexivity.
  - refine (proj1 C8_valid_creation_is_refused _ productService 7000%Z
              "uuid-1" "Lamp" "desk lamp" (-1)%Q samples.store_AB _).
    right. reflexivity.
  - destruct (proj1 (proj2 C8_valid_creation_is_refused) 7000%Z "uuid-1"
                "Lamp" "desk lamp" 0%Q samples.store_AB)
      as (product & Hnew & Htimes & _ & Hrun).
    + discriminate.
    + discriminate.
    + reflexivity.
    + exists product. split; [exact Hnew|]. split; assumption.
Defined.

Lemma Qltb_zero_false (x : Q) : (x == 0)%Q -> Qltb 0 x = false.
Proof. intros H. apply Qltb_ge. rewrite H. apply Qle_refl. Qed.

Lemma Qeq_bool_zero (x : Q) : (x == 0)%Q -> Qeq_bool x 0 = true.
Proof. apply Qeq_bool_iff. Qed.

(** C9.  A request that gives min_price=0 (or max_price=0) is handled
    exactly as the request without that parameter.  When a price bound
    of the filters is zero, neither the Scan filter nor the count filter
    holds a condition for it, so with both bounds zero a record is
    selected on its name alone, whatever its price; and a zero bound is
    not a member of the JSON echo of the applied filters. *)
Theorem C9_zero_price_bound_is_no_bound :
  (forall (S : Type)
          (svc : ports.ProductFilters -> S -> go ports.ProductListResult * S)
          (q : binding.Query) (st : S),
      handler.List svc (spec.with_min_price q (binding.Parsed 0%Q)) st
      = handler.List svc (spec.with_min_price q binding.Absent) st /\
      handler.List svc (spec.with_max_price q (binding.Parsed 0%Q)) st
      = handler.List svc (spec.with_max_price q binding.Absent) st) /\
  (forall r filters,
      (ports.MinPrice filters == 0)%Q ->
      existsb spec.is_lower_bound
        (spec.conjuncts
           (dynamodb.FilterExpression (repository.scanInput r filters))) = false /\
      existsb spec.is_lower_bound
        (spec.conjuncts
           (dynamodb.FilterExpression (repository.countInput r filters))) = false) /\
  (forall r filters,
      (ports.MaxPrice filters == 0)%Q ->
      existsb spec.is_upper_bound
        (spec.conjuncts
           (dynamodb.FilterExpression (repository.scanInput r filters))) = false /\
      existsb spec.is_upper_bound
        (spec.conjuncts
           (dynamodb.FilterExpression (repository.countInput r filters))) = false) /\
  (forall filters p,
      (ports.MinPrice filters == 0)%Q -> (ports.MaxPrice filters == 0)%Q ->
      spec.selects filters p
      = (String.eqb (ports.Name filters) ""
         || dynamodb.contains (domain.Name p) (ports.Name filters))) /\
  (forall req result,
      let echo :=
        spec.keys
          (dto.FilterInfo_json
             (dto.FiltersApplied (handler.response_of req result))) in
      ((dto.MinPrice req == 0)%Q -> ~ In "min_price" echo) /\
      ((dto.MaxPrice req == 0)%Q -> ~ In "max_price" echo)).
Proof.
  split; [|split; [|split; [|split]]].
  - intros S svc q st. split; reflexivity.
  - intros r filters Hzero. apply Qltb_zero_false in Hzero.
    unfold repository.scanInput, repository.countInput,
      repository.any_filter, repository.conditions.
    cbn [dynamodb.FilterExpression]. rewrite Hzero.
    destruct (negb (String.eqb (ports.Name filters) ""));
      destruct (Qltb 0 (ports.MaxPrice filters)); split; reflexivity.
  - intros r filters Hzero. apply Qltb_zero_false in Hzero.
    unfold repository.scanInput, repository.countInput,
      repository.any_filter, repository.conditions.
    cbn [dynamodb.FilterExpression]. rewrite Hzero.
    destruct (negb (String.eqb (ports.Name filters) ""));
      destruct (Qltb 0 (ports.MinPrice filters)); split; reflexivity.
  - intros filters p Hmin Hmax. rewrite selects_meaning.
    rewrite (Qltb_zero_false _ Hmin), (Qltb_zero_false _ Hmax).
    cbn. rewrite !andb_true_r. reflexivity.
  - intros req result echo. subst echo.
    unfold handler.response_of. cbn [dto.FiltersApplied].
    split; intros Hzero; apply Qeq_bool_zero in Hzero;
      unfold dto.FilterInfo_json, spec.keys;
      destruct (dto.HasFilters req);
      cbn [dto.fi_Name dto.fi_MinPrice dto.fi_MaxPrice dto.FilterInfo_zero];
      rewrite ?Hzero;
      try change (Qeq_bool 0 0) with true;
      repeat match goal with
             | |- context [if ?b then _ else _] => destruct b
             end;
      cbn; intuition discriminate.
Qed.

Lemma C9_zero_price_bound_is_no_bound_witness :
  (ports.MinPrice samples.filters_x == 0)%Q /\
  (ports.MaxPrice samples.filters_x == 0)%Q /\
  existsb spec.is_upper_bound
    (spec.conjuncts
       (dynamodb.FilterExpression
          (repository.scanInput productRepo samples.filters_x))) = false /\
  spec.selects samples.filters_x samples.wax
  = (String.eqb (ports.Name samples.filters_x) ""
     || dynamodb.contains (domain.Name samples.wax)
          (ports.Name samples.filters_x)) /\
  ~ In "max_price"
      (spec.keys
         (dto.FilterInfo_json
            (dto.FiltersApplied
               (handler.response_of (samples.bound_request 1 20 5 0)
                  {| ports.Products := []; ports.TotalItems := 0 |})))).
Proof.
  assert (H1 : (ports.MinPrice samples.filters_x == 0)%Q) by reflexivity.
  assert (H2 : (ports.MaxPrice samples.filters_x == 0)%Q) by reflexivity.
  split; [exact H1|]. split; [exact H2|]. split; [|split].
  - exact (proj1 (proj1 (proj2 (proj2 C9_zero_price_bound_is_no_bound))
                    productRepo samples.filters_x H2)).
  - exact (proj1 (proj2 (proj2 (proj2 C9_zero_price_bound_is_no_bound)))
             samples.filters_x samples.wax H1 H2).
  - refine (proj2 (proj2 (proj2 (proj2 (proj2 C9_zero_price_bound_is_no_bound)))
                     (samples.bound_request 1 20 5 0)
                     {| ports.Products := []; ports.TotalItems := 0 |}) _).
    reflexivity.
Defined.

(** * Further properties *)

(** ** The in-memory sort *)

Lemma no_inversion_lookup (less : domain.Product -> domain.Product -> bool)
    (l : list domain.Product) :
  spec.no_inversion less l = true ->
  forall j a b, l !! j = Some a -> l !! S j = Some b -> less a b = false.
Proof.
  induction l as [|x l IH]; intros Hno j a b Ha Hb; [discriminate|].
  destruct l as [|y l]; [destruct j; discriminate|].
  cbn [spec.no_inversion] in Hno.
  apply andb_true_iff in Hno as [Hxy Hrest].
  destruct j as [|j].
  - cbn in Ha, Hb. injection Ha as <-. injection Hb as <-.
    apply negb_true_iff. exact Hxy.
  - apply (IH Hrest j a b); assumption.
Qed.

Lemma insert_at_no_inversion (less : domain.Product -> domain.Product -> bool)
    (l : list domain.Product) (i : nat) :
  spec.no_inversion less l = true ->
  sorting.insert_at less l i = l.
Proof.
  intros Hno. unfold sorting.insert_at.
  destruct (l !! i) as [key|] eqn:Hk; [|reflexivity].
  destruct i as [|j]; cbn [sorting.shift].
  - apply list_insert_id. exact Hk.
  - destruct (l !! j) as [a|] eqn:Ha.
    + rewrite Hk. rewrite (no_inversion_lookup less l Hno j a key Ha Hk).
      apply list_insert_id. exact Hk.
    + apply list_insert_id. exact Hk.
Qed.

(** X1.  [sortProducts] returns a permutation of its input: no record
    is lost, added or duplicated, for every sort field and direction. *)
Theorem sortProducts_is_permutation (products : list domain.Product)
    (sortBy sortOrder : string) :
  Permutation (sorting.sortProducts products sortBy sortOrder) products.
Proof. apply sorting_facts.sortProducts_perm. Qed.

(** X2.  [sortProducts] keeps the relative order of the records that
    its comparison does not order: for every record [x], the records
    with the same compared key as [x] (name, price, or creation time for
    any other sort field) leave in the order in which they came. *)
Theorem sortProducts_stable_on_compared_key (products : list domain.Product)
    (sortBy sortOrder : string) (x : domain.Product) :
  List.filter (spec.same_key (sorting.compare sortBy sortOrder) x)
    (sorting.sortProducts products sortBy sortOrder)
  = List.filter (spec.same_key (sorting.compare sortBy sortOrder) x) products.
Proof. apply sorting_facts.sortProducts_stable_compared_key. Qed.

(** X3.  A list in which no record compares less than its right
    neighbour is returned as it is.  For an ascending request that is a
    list in non-increasing order: the loop only ever moves a record left
    past records that compare less than their right neighbour. *)
Theorem sortProducts_keeps_list_without_inversion
    (products : list domain.Product) (sortBy sortOrder : string) :
  spec.no_inversion (sorting.compare sortBy sortOrder) products = true ->
  sorting.sortProducts products sortBy sortOrder = products.
Proof.
  intros Hno. unfold sorting.sortProducts.
  destruct (length products <=? 1)%nat; [reflexivity|].
  assert (Hloop : forall n i,
             sorting.insertion_loop (sorting.compare sortBy sortOrder)
               n i products = products).
  { intros n. induction n as [|n IH]; intros i; cbn [sorting.insertion_loop];
      [reflexivity|].
    rewrite insert_at_no_inversion by exact Hno. apply IH. }
  apply Hloop.
Qed.

Lemma sortProducts_keeps_list_without_inversion_witness :
  spec.no_inversion (sorting.compare "price" "asc")
    [samples.productC; samples.productB; samples.productA] = true /\
  sorting.sortProducts
    [samples.productC; samples.productB; samples.productA] "price" "asc"
  = [samples.productC; samples.productB; samples.productA].
Proof.
  assert (H : spec.no_inversion (sorting.compare "price" "asc")
                [samples.productC; samples.productB; samples.productA] = true)
    by reflexivity.
  split; [exact H|].
  exact (sortProducts_keeps_list_without_inversion _ "price" "asc" H).
Defined.

(** ** The list pipeline of the repository *)



Lemma any_filter_conditions filters :
  repository.any_filter filters = true ->
  (0 <? length (repository.conditions filters))%nat = true.
Proof.
  unfold repository.any_filter, repository.conditions. intros H.
  destruct (negb (String.eqb (ports.Name filters) ""));
    destruct (Qltb 0 (ports.MinPrice filters));
    destruct (Qltb 0 (ports.MaxPrice filters)); try discriminate; reflexivity.
Qed.







(** X7.  The count request carries the same filter expression as the
    data scan, for every filter specification. *)
Theorem count_uses_the_filter_of_the_scan
    (r : repository.DynamoDBRepository) (filters : ports.ProductFilters) :
  dynamodb.FilterExpression (repository.countInput r filters)
  = dynamodb.FilterExpression (repository.scanInput r filters).
Proof.
  unfold repository.countInput, repository.scanInput.
  cbn [dynamodb.FilterExpression].
  destruct (repository.any_filter filters) eqn:Hany; [|reflexivity].
  rewrite (any_filter_conditions filters Hany). reflexivity.
Qed.

(** X8.  The slicing block panics on a negative offset, and on a
    negative limit once the offset is in range; with C10 this settles
    its behaviour on every input. *)
Theorem paginate_panics_on_negative_bounds (products : list domain.Product)
    (offset limit : Z) :
  ((offset < 0)%Z ->
   repository.paginate products offset limit
   = Panic "slice bounds out of range") /\
  ((0 <= offset)%Z -> (limit < 0)%Z ->
   repository.paginate products offset limit
   = Panic "slice bounds out of range").
Proof.
  split.
  - intros Hneg. unfold repository.paginate.
    replace (offset <? Z.of_nat (length products))%Z with true
      by (symmetry; apply Z.ltb_lt; lia).
    unfold slice_from.
    replace (0 <=? offset)%Z with false by (symmetry; apply Z.leb_gt; lia).
    reflexivity.
  - intros Hoff Hneg. unfold repository.paginate.
    assert (Hto : forall l : list domain.Product,
               (if (limit <? Z.of_nat (length l))%Z
                then slice_to l limit else Return l)
               = Panic "slice bounds out of range").
    { intros l.
      replace (limit <? Z.of_nat (length l))%Z with true
        by (symmetry; apply Z.ltb_lt; lia).
      unfold slice_to.
      replace (0 <=? limit)%Z with false by (symmetry; apply Z.leb_gt; lia).
      reflexivity. }
    destruct (offset <? Z.of_nat (length products))%Z eqn:Hlt.
    + unfold slice_from.
      replace ((0 <=? offset)%Z && (offset <=? Z.of_nat (length products))%Z)
        with true.
      * cbn [go_bind]. apply Hto.
      * symmetry. apply Z.ltb_lt in Hlt.
        apply andb_true_iff; split; apply Z.leb_le; lia.
    + cbn [go_bind]. apply Hto.
Qed.

Lemma paginate_panics_on_negative_bounds_witness :
  (-1 < 0)%Z /\
  repository.paginate [samples.productA] (-1) 1
  = Panic "slice bounds out of range".
Proof.
  assert (H : (-1 < 0)%Z) by lia.
  split; [exact H|].
  exact (proj1 (paginate_panics_on_negative_bounds [samples.productA] (-1) 1) H).
Defined.

(** ** The list handler *)

Lemma oneof_In (v : string) (allowed : list string) :
  binding.oneof v allowed = true -> In v allowed.
Proof.
  unfold binding.oneof. intros H.
  apply existsb_exists in H as (x & Hin & Heq).
  apply String.eqb_eq in Heq. subst x. exact Hin.
Qed.

Lemma ShouldBindQuery_no_panic q msg : binding.ShouldBindQuery q <> Panic msg.
Proof.
  unfold binding.ShouldBindQuery.
  destruct (binding.mapForm q) as [r|e|m] eqn:Hmap; cbn [go_bind].
  - destruct (binding.validate r); discriminate.
  - discriminate.
  - exfalso. exact (mapForm_no_panic q m Hmap).
Qed.

Lemma range_check (lo hi : Q) :
  Qltb 0 lo && Qltb 0 hi && Qltb hi lo = false <->
  ((0 < lo)%Q -> (0 < hi)%Q -> (lo <= hi)%Q).
Proof.
  split.
  - intros H Hlo Hhi. apply Qltb_lt in Hlo, Hhi. rewrite Hlo, Hhi in H.
    cbn in H. apply Qltb_ge. exact H.
  - intros H.
    destruct (Qltb 0 lo) eqn:Hlo; [|reflexivity].
    destruct (Qltb 0 hi) eqn:Hhi; [|reflexivity].
    cbn. apply Qltb_ge. apply H; apply Qltb_lt; assumption.
Qed.

(** The filters built from a struct that passed the validator and the
    handler's two checks. *)
Lemma filters_of_validated r :
  spec.bound r ->
  (dto.Page (dto.SetDefaults r) <= 1000)%Z ->
  Qltb 0 (dto.MinPrice (dto.SetDefaults r))
  && Qltb 0 (dto.MaxPrice (dto.SetDefaults r))
  && Qltb (dto.MaxPrice (dto.SetDefaults r))
          (dto.MinPrice (dto.SetDefaults r)) = false ->
  spec.validated (handler.filters_of (dto.SetDefaults r)).
Proof.
  intros Hb Hpage Hrange.
  destruct (handler_facts.SetDefaults_bound r Hb) as [HP HL].
  destruct Hb as [Hp Hl Hmin Hmax Hby Horder].
  rewrite HP in Hpage.
  constructor;
    cbn [handler.filters_of ports.Limit ports.Offset ports.SortBy
         ports.SortOrder ports.MinPrice ports.MaxPrice];
    unfold dto.GetOffset; rewrite ?HP, ?HL.
  - lia.
  - nia.
  - exists (dto.Page r). split; [lia | reflexivity].
  - cbn [dto.SetDefaults dto.SortBy].
    destruct (String.eqb (dto.SortBy r) "") eqn:E.
    + right. right. left. reflexivity.
    + destruct Hby as [Hby|Hby];
        [apply String.eqb_neq in E; contradiction | apply oneof_In; exact Hby].
  - cbn [dto.SetDefaults dto.SortOrder].
    destruct (String.eqb (dto.SortOrder r) "") eqn:E.
    + right. left. reflexivity.
    + destruct Horder as [H|H];
        [apply String.eqb_neq in E; contradiction | apply oneof_In; exact H].
  - exact Hmin.
  - exact Hmax.
  - apply range_check. exact Hrange.
Qed.

(** The one path of [List] that reaches the service. *)
Lemma List_past_validation {S : Type}
    (svc : ports.ProductFilters -> S -> go ports.ProductListResult * S)
    (q : binding.Query) (st : S) :
  handler.Status (fst (handler.List svc q st)) <> handler.StatusBadRequest ->
  exists req,
    spec.validated (handler.filters_of req) /\
    snd (handler.List svc q st) = snd (svc (handler.filters_of req) st) /\
    fst (handler.List svc q st)
    = match fst (svc (handler.filters_of req) st) with
      | Return result =>
          {| handler.Status := handler.StatusOK;
             handler.Payload :=
               handler.ListBody (handler.response_of req result) |}
      | Fail _ =>
          {| handler.Status := handler.StatusInternalServerError;
             handler.Payload := handler.ErrorBody "internal server error" None |}
      | Panic _ =>
          {| handler.Status := handler.StatusInternalServerError;
             handler.Payload := handler.NoBody |}
      end.
Proof.
  unfold handler.List.
  destruct (binding.ShouldBindQuery q) as [r|e|m] eqn:Hbind;
    [|intros H; exfalso; apply H; reflexivity
     |exfalso; exact (ShouldBindQuery_no_panic q m Hbind)].
  cbn zeta.
  destruct (1000 <? dto.Page (dto.SetDefaults r))%Z eqn:Hpage;
    [intros H; exfalso; apply H; reflexivity|].
  destruct (Qltb 0 (dto.MinPrice (dto.SetDefaults r))
            && Qltb 0 (dto.MaxPrice (dto.SetDefaults r))
            && Qltb (dto.MaxPrice (dto.SetDefaults r))
                    (dto.MinPrice (dto.SetDefaults r))) eqn:Hrange;
    [intros H; exfalso; apply H; reflexivity|].
  intros _. exists (dto.SetDefaults r).
  apply handler_facts.ShouldBindQuery_inv in Hbind as [_ Hb].
  apply Z.ltb_ge in Hpage.
  split; [apply filters_of_validated; assumption|].
  destruct (svc (handler.filters_of (dto.SetDefaults r)) st)
    as [[result|err|msg] st']; split; reflexivity.
Qed.

(** X9.  Whenever the list handler answers anything but 400, it has
    called the service exactly with filters that are validated: limit in
    1..100, offset = (page - 1) * limit for a page in 1..1000 (so
    0 <= offset <= 99900, far from overflow), sort field and direction
    among the supported values, price bounds non-negative and, when both
    are above zero, ordered; and the state it returns is the one the
    service left. *)
Theorem List_calls_service_with_validated_filters {S : Type}
    (svc : ports.ProductFilters -> S -> go ports.ProductListResult * S)
    (q : binding.Query) (st : S) :
  handler.Status (fst (handler.List svc q st)) <> handler.StatusBadRequest ->
  exists req,
    spec.validated (handler.filters_of req) /\
    snd (handler.List svc q st) = snd (svc (handler.filters_of req) st) /\
    fst (handler.List svc q st)
    = match fst (svc (handler.filters_of req) st) with
      | Return result =>
          {| handler.Status := handler.StatusOK;
             handler.Payload :=
               handler.ListBody (handler.response_of req result) |}
      | Fail _ =>
          {| handler.Status := handler.StatusInternalServerError;
             handler.Payload := handler.ErrorBody "internal server error" None |}
      | Panic _ =>
          {| handler.Status := handler.StatusInternalServerError;
             handler.Payload := handler.NoBody |}
      end.
Proof. apply List_past_validation. Qed.

Lemma List_calls_service_with_validated_filters_witness :
  handler.Status (fst (list_products samples.query_first_page samples.store_AB))
  <> handler.StatusBadRequest /\
  exists req,
    spec.validated (handler.filters_of req) /\
    snd (list_products samples.query_first_page samples.store_AB)
    = snd (services.ListWithFilters productService
             (handler.filters_of req) samples.store_AB).
Proof.
  assert (H : handler.Status
                (fst (list_products samples.query_first_page samples.store_AB))
              <> handler.StatusBadRequest)
    by (vm_compute; discriminate).
  split; [exact H|].
  destruct (List_calls_service_with_validated_filters
              (services.ListWithFilters productService)
              samples.query_first_page samples.store_AB H)
    as (req & Hval & Hst & _).
  exists req. split; assumption.
Defined.

Lemma ListWithFilters_on_fault (r : repository.DynamoDBRepository) filters c e :
  dynamodb.fault c = Some e ->
  repository.ListWithFilters r filters c
  = (Fail (wrap "failed to scan products" e),
     dynamodb.sent (dynamodb.OpScan (repository.scanInput r filters)) c).
Proof.
  intros Hf. unfold repository.ListWithFilters, dynamodb.Scan.
  rewrite Hf. reflexivity.
Qed.

(** X10.  When the store does not answer, a list request that passes
    validation is answered 500 with the fixed text "internal server
    error": the store's error text is not in the response.  One Scan
    request was attempted and the count request was not sent. *)
Theorem store_fault_answers_500 (q : binding.Query) (c : dynamodb.Client)
    (e : string) :
  dynamodb.fault c = Some e ->
  handler.Status (fst (list_products q c)) <> handler.StatusBadRequest ->
  exists filters,
    list_products q c
    = ({| handler.Status := handler.StatusInternalServerError;
          handler.Payload := handler.ErrorBody "internal server error" None |},
       {| dynamodb.table := dynamodb.table c;
          dynamodb.fault := dynamodb.fault c;
          dynamodb.log :=
            dynamodb.log c
            ++ [dynamodb.OpScan (repository.scanInput productRepo filters)] |}).
Proof.
  intros Hf Hnot. unfold list_products in *.
  destruct (List_past_validation _ q c Hnot) as (req & _ & Hst & Hresp).
  exists (handler.filters_of req).
  assert (Hsvc : services.ListWithFilters (repository.as_port productRepo)
                   (handler.filters_of req) c
                 = (Fail (wrap "failed to scan products" e),
                    dynamodb.sent
                      (dynamodb.OpScan
                         (repository.scanInput productRepo
                            (handler.filters_of req))) c)).
  { unfold services.ListWithFilters.
    cbn [repository.as_port ports.ListWithFilters].
    rewrite (ListWithFilters_on_fault productRepo _ c e Hf). reflexivity. }
  rewrite Hsvc in Hst, Hresp. cbn [fst snd] in Hst, Hresp.
  rewrite (surjective_pairing (handler.List _ q c)).
  rewrite Hst, Hresp. reflexivity.
Qed.

Lemma store_fault_answers_500_witness :
  dynamodb.fault samples.store_down = Some "RequestError: send request failed" /\
  handler.Status (fst (list_products samples.query_first_page samples.store_down))
  <> handler.StatusBadRequest /\
  exists filters,
    list_products samples.query_first_page samples.store_down
    = ({| handler.Status := handler.StatusInternalServerError;
          handler.Payload := handler.ErrorBody "internal server error" None |},
       {| dynamodb.table := dynamodb.table samples.store_down;
          dynamodb.fault := dynamodb.fault samples.store_down;
          dynamodb.log :=
            dynamodb.log samples.store_down
            ++ [dynamodb.OpScan (repository.scanInput productRepo filters)] |}).
Proof.
  assert (H1 : dynamodb.fault samples.store_down
               = Some "RequestError: send request failed") by reflexivity.
  assert (H2 : handler.Status
                 (fst (list_products samples.query_first_page samples.store_down))
               <> handler.StatusBadRequest) by (vm_compute; discriminate).
  split; [exact H1|]. split; [exact H2|].
  exact (store_fault_answers_500 samples.query_first_page samples.store_down
           _ H1 H2).
Defined.

Lemma Qltb_zero_not_eq (x : Q) : Qltb 0 x = true -> Qeq_bool x 0 = false.
Proof.
  intros H. apply Qltb_lt in H.
  destruct (Qeq_bool x 0) eqn:E; [|reflexivity].
  apply Qeq_bool_iff in E. rewrite E in H.
  exfalso. exact (Qlt_irrefl 0 H).
Qed.

(** X11.  The echo of the applied filters in a list response is the
    empty JSON object exactly when the repository sends the store no
    filter expression for the same request: the handler's [HasFilters]
    and the repository's guard agree. *)
Theorem echo_empty_iff_no_filter_expression
    (r : repository.DynamoDBRepository) (req : dto.ListProductsRequest)
    (result : ports.ProductListResult) :
  dto.FilterInfo_json (dto.FiltersApplied (handler.response_of req result)) = []
  <->
  dynamodb.FilterExpression (repository.scanInput r (handler.filters_of req))
  = None.
Proof.
  unfold handler.response_of, repository.scanInput.
  cbn [dto.FiltersApplied dynamodb.FilterExpression].
  change (repository.any_filter (handler.filters_of req))
    with (dto.HasFilters req).
  unfold dto.HasFilters, dto.FilterInfo_json.
  destruct (String.eqb (dto.Name req) "") eqn:Hname;
    destruct (Qltb 0 (dto.MinPrice req)) eqn:Hmin;
    destruct (Qltb 0 (dto.MaxPrice req)) eqn:Hmax;
    cbn [negb orb dto.fi_Name dto.fi_MinPrice dto.fi_MaxPrice
         dto.FilterInfo_zero];
    rewrite ?Hname, ?(Qltb_zero_not_eq _ Hmin), ?(Qltb_zero_not_eq _ Hmax);
    try (split; intros ?; reflexivity);
    split; intros H; try discriminate H;
    repeat match type of H with
           | context [if ?b then _ else _] => destruct b
           end;
    discriminate H.
Qed.

(** X12.  [SetDefaults] leaves a request with a page and a limit of at
    least 1 and a non-empty sort field and direction, changes no filter
    field, and is idempotent. *)
Theorem SetDefaults_completes_the_request (r : dto.ListProductsRequest) :
  (1 <= dto.Page (dto.SetDefaults r))%Z /\
  (1 <= dto.Limit (dto.SetDefaults r))%Z /\
  dto.SortBy (dto.SetDefaults r) <> "" /\
  dto.SortOrder (dto.SetDefaults r) <> "" /\
  dto.HasFilters (dto.SetDefaults r) = dto.HasFilters r /\
  dto.SetDefaults (dto.SetDefaults r) = dto.SetDefaults r.
Proof.
  destruct r as [page limit name minp maxp sortBy sortOrder fields].
  unfold dto.SetDefaults, dto.HasFilters. cbn.
  destruct (page <=? 0)%Z eqn:Hp; destruct (limit <=? 0)%Z eqn:Hl;
    destruct (String.eqb sortBy "") eqn:Hby;
    destruct (String.eqb sortOrder "") eqn:Hord;
    cbn; rewrite ?Hp, ?Hl, ?Hby, ?Hord;
    try apply Z.leb_gt in Hp; try apply Z.leb_gt in Hl;
    try apply String.eqb_neq in Hby; try apply String.eqb_neq in Hord;
    repeat split; try lia; try assumption; try discriminate; reflexivity.
Qed.

(** ** The single-record operations of the repository *)

Module store_facts.
Import domain.

Lemma item_with_Some (id : string) (items : list Product) (p : Product) :
  spec.item_with id items = Some p -> In p items /\ ID p = id.
Proof.
  unfold spec.item_with. intros H. apply List.find_some in H as [Hin Heq].
  apply String.eqb_eq in Heq. auto.
Qed.

Lemma item_with_None (id : string) (items : list Product) :
  spec.item_with id items = None <-> (forall p, In p items -> ID p <> id).
Proof.
  unfold spec.item_with. split.
  - intros H p Hin Heq.
    pose proof (List.find_none _ _ H p Hin) as Hf. cbn in Hf.
    apply String.eqb_neq in Hf. contradiction.
  - intros H. induction items as [|q items IH]; [reflexivity|]. cbn.
    destruct (String.eqb (ID q) id) eqn:E.
    + apply String.eqb_eq in E. exfalso. apply (H q); [left; reflexivity | exact E].
    + apply IH. intros p Hin. apply H. right. exact Hin.
Qed.

Lemma item_with_removed (id : string) (items : list Product) :
  spec.item_with id
    (List.filter (fun p => negb (String.eqb (ID p) id)) items) = None.
Proof.
  apply item_with_None. intros p Hin Heq.
  apply List.filter_In in Hin as [_ Hneg].
  apply String.eqb_eq in Heq. rewrite Heq in Hneg. discriminate.
Qed.

Lemma item_with_removed_other (id id' : string) (items : list Product) :
  id' <> id ->
  spec.item_with id'
    (List.filter (fun p => negb (String.eqb (ID p) id)) items)
  = spec.item_with id' items.
Proof.
  intros Hne. unfold spec.item_with.
  induction items as [|q items IH]; [reflexivity|]. cbn.
  destruct (String.eqb (ID q) id) eqn:E; cbn.
  - apply String.eqb_eq in E.
    replace (String.eqb (ID q) id') with false
      by (symmetry; apply String.eqb_neq; congruence).
    exact IH.
  - destruct (String.eqb (ID q) id'); [reflexivity | exact IH].
Qed.

Lemma remove_absent (id : string) (items : list Product) :
  spec.item_with id items = None ->
  List.filter (fun p => negb (String.eqb (ID p) id)) items = items.
Proof.
  intros H0. pose proof (proj1 (item_with_None id items) H0) as H.
  clear H0.
  induction items as [|q items IH]; [reflexivity|]. cbn.
  destruct (String.eqb (ID q) id) eqn:E.
  - apply String.eqb_eq in E. exfalso.
    apply (H q); [left; reflexivity | exact E].
  - cbn. f_equal. apply IH. intros p Hin. apply H. right. exact Hin.
Qed.

Lemma unique_ids_remove (id : string) (items : list Product) :
  spec.unique_ids items ->
  spec.unique_ids (List.filter (fun p => negb (String.eqb (ID p) id)) items).
Proof.
  unfold spec.unique_ids.
  induction items as [|q items IH]; cbn; intros Hnd; [exact Hnd|].
  apply NoDup_cons in Hnd as [Hq Hnd].
  destruct (negb (String.eqb (ID q) id)); [|apply IH; exact Hnd].
  cbn. apply NoDup_cons. split; [|apply IH; exact Hnd].
  intros Hin. apply Hq.
  apply list_elem_of_In. apply list_elem_of_In in Hin.
  apply in_map_iff in Hin as (x & Hx & Hin).
  apply List.filter_In in Hin as [Hin _].
  apply in_map_iff. exists x. auto.
Qed.

End store_facts.

Lemma GetByID_answer (id : string)
    (c : dynamodb.Client) :
  dynamodb.fault c = None ->
  repository.GetByID id c
  = (match spec.item_with id (dynamodb.table c) with
     | Some product => Return product
     | None => Fail domain.ErrNotFound
     end,
     dynamodb.sent (dynamodb.OpGetItem id) c).
Proof.
  intros Hok. unfold repository.GetByID, dynamodb.GetItem. rewrite Hok.
  change (List.find (fun p => String.eqb (domain.ID p) id) (dynamodb.table c))
    with (spec.item_with id (dynamodb.table c)).
  destruct (spec.item_with id (dynamodb.table c)); reflexivity.
Qed.

Lemma Delete_answer (id : string)
    (c : dynamodb.Client) :
  dynamodb.fault c = None ->
  repository.Delete id c
  = (Return tt,
     {| dynamodb.table :=
          List.filter (fun p => negb (String.eqb (domain.ID p) id))
            (dynamodb.table c);
        dynamodb.fault := None;
        dynamodb.log := dynamodb.log c ++ [dynamodb.OpDeleteItem id] |}).
Proof.
  intros Hok. unfold repository.Delete, dynamodb.DeleteItem. rewrite Hok.
  reflexivity.
Qed.

(** X13.  On an answering store [Save] is refused: the item it sends
    names its attributes after the Go fields, so it has no key
    attribute [id]; one put request is logged, the table is as it was,
    and [GetByID] reads every id, the product's own included, as before
    the save. *)
Theorem Save_refused_then_GetByID (p : domain.Product) (c : dynamodb.Client) :
  dynamodb.fault c = None ->
  List.map fst (dynamodb.MarshalMap p)
  = ["ID"; "Name"; "Description"; "Price"; "CreatedAt"; "UpdatedAt"] /\
  fst (repository.Save p c) = Fail dynamodb.missing_key /\
  dynamodb.table (snd (repository.Save p c)) = dynamodb.table c /\
  dynamodb.log (snd (repository.Save p c))
  = dynamodb.log c ++ [dynamodb.OpPutItem (dynamodb.MarshalMap p)] /\
  forall id,
    fst (repository.GetByID id (snd (repository.Save p c)))
    = fst (repository.GetByID id c).
Proof.
  intros Hok. rewrite (Save_refused p c Hok). cbn [fst snd].
  split; [reflexivity|]. split; [reflexivity|]. split; [reflexivity|].
  split; [reflexivity|].
  intros id. rewrite !GetByID_answer by exact Hok. reflexivity.
Qed.

Lemma Save_refused_then_GetByID_witness :
  dynamodb.fault samples.store_AB = None /\
  fst (repository.Save samples.productC samples.store_AB)
  = Fail dynamodb.missing_key /\
  fst (repository.GetByID (domain.ID samples.productC)
         (snd (repository.Save samples.productC samples.store_AB)))
  = Fail domain.ErrNotFound.
Proof.
  assert (H : dynamodb.fault samples.store_AB = None) by reflexivity.
  split; [exact H|]. split.
  - exact (proj1 (proj2 (Save_refused_then_GetByID samples.productC
                           samples.store_AB H))).
  - rewrite (proj2 (proj2 (proj2 (proj2
               (Save_refused_then_GetByID samples.productC
                  samples.store_AB H))))).
    reflexivity.
Defined.



(** X15.  On an answering store [Delete] succeeds whether or not an
    item has the id (it never reports product-not-found); afterwards the
    id is not found, every other id reads as before, and a table that
    held no such item is unchanged. *)
Theorem Delete_removes_the_id (id : string) (c : dynamodb.Client) :
  dynamodb.fault c = None ->
  fst (repository.Delete id c) = Return tt /\
  fst (repository.GetByID id (snd (repository.Delete id c)))
  = Fail domain.ErrNotFound /\
  (forall id', id' <> id ->
     fst (repository.GetByID id' (snd (repository.Delete id c)))
     = fst (repository.GetByID id' c)) /\
  ((forall p, In p (dynamodb.table c) -> domain.ID p <> id) ->
   dynamodb.table (snd (repository.Delete id c)) = dynamodb.table c).
Proof.
  intros Hok. rewrite (Delete_answer id c Hok). cbn [fst snd].
  split; [reflexivity|]. split; [|split].
  - rewrite GetByID_answer by reflexivity. cbn [fst dynamodb.table].
    rewrite store_facts.item_with_removed. reflexivity.
  - intros id' Hne. rewrite !GetByID_answer by (reflexivity || assumption).
    cbn [fst dynamodb.table].
    rewrite store_facts.item_with_removed_other by exact Hne. reflexivity.
  - intros Habsent. cbn [dynamodb.table].
    apply store_facts.remove_absent. apply store_facts.item_with_None.
    exact Habsent.
Qed.

Lemma Delete_removes_the_id_witness :
  dynamodb.fault samples.store_AB = None /\
  fst (repository.Delete "no-such-id" samples.store_AB) = Return tt /\
  fst (repository.GetByID "1"
         (snd (repository.Delete "1" samples.store_AB)))
  = Fail domain.ErrNotFound.
Proof.
  assert (H : dynamodb.fault samples.store_AB = None) by reflexivity.
  split; [exact H|]. split.
  - exact (proj1 (Delete_removes_the_id "no-such-id"
                    samples.store_AB H)).
  - exact (proj1 (proj2 (Delete_removes_the_id "1"
                           samples.store_AB H))).
Defined.

(** X16.  [Save], [Update] and [Delete] keep the ids of the table
    unique, whether or not the store answers. *)
Theorem writes_keep_ids_unique (p : domain.Product) (id : string) (c : dynamodb.Client) :
  spec.unique_ids (dynamodb.table c) ->
  spec.unique_ids (dynamodb.table (snd (repository.Save p c))) /\
  spec.unique_ids (dynamodb.table (snd (repository.Update p c))) /\
  spec.unique_ids (dynamodb.table (snd (repository.Delete id c))).
Proof.
  intros Hu.
  assert (Hsave : spec.unique_ids
                    (dynamodb.table (snd (repository.Save p c)))).
  { rewrite Save_keeps_table. exact Hu. }
  split; [exact Hsave|]. split; [exact Hsave|].
  unfold repository.Delete, dynamodb.DeleteItem.
  destruct (dynamodb.fault c); cbn; [exact Hu|].
  apply store_facts.unique_ids_remove. exact Hu.
Qed.

Lemma writes_keep_ids_unique_witness :
  spec.unique_ids (dynamodb.table samples.store_AB) /\
  spec.unique_ids
    (dynamodb.table
       (snd (repository.Save samples.productC samples.store_AB))).
Proof.
  assert (H : spec.unique_ids (dynamodb.table samples.store_AB)).
  { unfold spec.unique_ids. cbn.
    apply NoDup_cons. split.
    - intros Hin. apply list_elem_of_In in Hin.
      destruct Hin as [E|[]]. discriminate E.
    - apply NoDup_cons. split; [|constructor].
      intros Hin. apply list_elem_of_In in Hin. destruct Hin. }
  split; [exact H|].
  exact (proj1 (writes_keep_ids_unique samples.productC "1"
                  samples.store_AB H)).
Defined.

(** X17.  When the store does not answer, every operation of the
    repository returns an error (the store's own, wrapped by
    [ListWithFilters]) and leaves the table as it was. *)
Theorem fault_fails_every_operation (r : repository.DynamoDBRepository)
    (p : domain.Product) (id : string) (filters : ports.ProductFilters)
    (c : dynamodb.Client) (e : string) :
  dynamodb.fault c = Some e ->
  (fst (repository.Save p c) = Fail e /\
   dynamodb.table (snd (repository.Save p c)) = dynamodb.table c) /\
  (fst (repository.GetByID id c) = Fail e /\
   dynamodb.table (snd (repository.GetByID id c)) = dynamodb.table c) /\
  (fst (repository.Update p c) = Fail e /\
   dynamodb.table (snd (repository.Update p c)) = dynamodb.table c) /\
  (fst (repository.Delete id c) = Fail e /\
   dynamodb.table (snd (repository.Delete id c)) = dynamodb.table c) /\
  (fst (repository.List r c) = Fail e /\
   dynamodb.table (snd (repository.List r c)) = dynamodb.table c) /\
  (fst (repository.ListWithFilters r filters c)
   = Fail (wrap "failed to scan products" e) /\
   dynamodb.table (snd (repository.ListWithFilters r filters c))
   = dynamodb.table c).
Proof.
  intros Hf.
  unfold repository.Update, repository.Save, repository.GetByID,
    repository.Delete, repository.List, repository.ListWithFilters,
    dynamodb.PutItem, dynamodb.GetItem, dynamodb.DeleteItem, dynamodb.Scan.
  rewrite Hf. cbn. repeat split; reflexivity.
Qed.

Lemma fault_fails_every_operation_witness :
  dynamodb.fault samples.store_down = Some "RequestError: send request failed" /\
  fst (repository.Save samples.productC samples.store_down)
  = Fail "RequestError: send request failed".
Proof.
  assert (H : dynamodb.fault samples.store_down
              = Some "RequestError: send request failed") by reflexivity.
  split; [exact H|].
  exact (proj1 (proj1 (fault_fails_every_operation productRepo
                         samples.productC "1" samples.filters_x
                         samples.store_down _ H))).
Defined.

(** ** The service over the repository *)

(** X18.  Updating an id that no item has returns product-not-found
    after one read; nothing is written. *)
Theorem Update_of_missing_id (now : Z) (id name description : string)
    (price : Q) (c : dynamodb.Client) :
  dynamodb.fault c = None ->
  (forall p, In p (dynamodb.table c) -> domain.ID p <> id) ->
  services.Update productService now id name description price c
  = (Fail domain.ErrNotFound,
     {| dynamodb.table := dynamodb.table c;
        dynamodb.fault := dynamodb.fault c;
        dynamodb.log := dynamodb.log c ++ [dynamodb.OpGetItem id] |}).
Proof.
  intros Hok Habsent. unfold services.Update, productService.
  cbn [repository.as_port ports.GetByID].
  rewrite (GetByID_answer id c Hok).
  rewrite (proj2 (store_facts.item_with_None id (dynamodb.table c)) Habsent).
  reflexivity.
Qed.

Lemma Update_of_missing_id_witness :
  dynamodb.fault samples.store_AB = None /\
  (forall p, In p (dynamodb.table samples.store_AB) ->
             domain.ID p <> "no-such-id") /\
  fst (services.Update productService 9000 "no-such-id" "Lamp" "" 1
         samples.store_AB)
  = Fail domain.ErrNotFound.
Proof.
  assert (H1 : dynamodb.fault samples.store_AB = None) by reflexivity.
  assert (H2 : forall p, In p (dynamodb.table samples.store_AB) ->
                         domain.ID p <> "no-such-id").
  { intros p [<-|[<-|[]]]; discriminate. }
  split; [exact H1|]. split; [exact H2|].
  rewrite (Update_of_missing_id 9000 "no-such-id" "Lamp" "" 1
             samples.store_AB H1 H2).
  reflexivity.
Defined.

(** X19.  Updating an existing record does not validate the new name
    and price (an empty name or a negative price goes into the record
    to write), and the write is refused: after one read and one put
    request whose item has no key attribute, [Update] returns the
    store's refusal, the table is as it was, and reading the id
    afterwards returns the record as it was before. *)
Theorem Update_of_existing_record_is_refused (now : Z)
    (id name description : string) (price : Q) (c : dynamodb.Client)
    (existing : domain.Product) :
  dynamodb.fault c = None ->
  spec.item_with id (dynamodb.table c) = Some existing ->
  let updated :=
    {| domain.ID := id;
       domain.Name := name;
       domain.Description := description;
       domain.Price := price;
       domain.CreatedAt := domain.CreatedAt existing;
       domain.UpdatedAt := now |} in
  let out := services.Update productService now id name description price c in
  fst out = Fail dynamodb.missing_key /\
  dynamodb.table (snd out) = dynamodb.table c /\
  dynamodb.log (snd out)
  = (dynamodb.log c ++ [dynamodb.OpGetItem id])
    ++ [dynamodb.OpPutItem (dynamodb.MarshalMap updated)] /\
  fst (services.Get productService id (snd out)) = Return existing.
Proof.
  intros Hok Hex updated out. subst out.
  destruct (store_facts.item_with_Some _ _ _ Hex) as [_ Hid].
  unfold services.Update, services.Get, productService.
  cbn [repository.as_port ports.GetByID ports.Update].
  rewrite (GetByID_answer id c Hok). rewrite Hex. rewrite Hid.
  fold updated. unfold repository.Update.
  rewrite Save_refused by exact Hok.
  cbn [fst snd dynamodb.table dynamodb.log dynamodb.sent].
  split; [reflexivity|]. split; [reflexivity|]. split; [reflexivity|].
  rewrite GetByID_answer by exact Hok.
  cbn [fst dynamodb.table dynamodb.sent].
  rewrite Hex. reflexivity.
Qed.

Lemma Update_of_existing_record_is_refused_witness :
  dynamodb.fault samples.store_AB = None /\
  spec.item_with "1" (dynamodb.table samples.store_AB) = Some samples.productA /\
  fst (services.Update productService 9000 "1" "Desk lamp" "brass" 3
         samples.store_AB)
  = Fail dynamodb.missing_key.
Proof.
  assert (H1 : dynamodb.fault samples.store_AB = None) by reflexivity.
  assert (H2 : spec.item_with "1" (dynamodb.table samples.store_AB)
               = Some samples.productA) by reflexivity.
  split; [exact H1|]. split; [exact H2|].
  exact (proj1 (Update_of_existing_record_is_refused 9000 "1" "Desk lamp"
                  "brass" 3 samples.store_AB samples.productA H1 H2)).
Defined.

(** X20.  On an answering store, [Create] with a non-empty name and a
    non-negative price sends one put request, with the new product
    under the generated id marshalled by field name, and returns the
    store's refusal of it; the table is as it was, so reading any id
    afterwards, the generated one included, gives what it gave
    before. *)
Theorem Create_then_Get (now : Z) (uuid name description : string)
    (price : Q) (c : dynamodb.Client) :
  dynamodb.fault c = None ->
  name <> "" -> (0 <= price)%Q ->
  let out := services.Create productService now uuid name description price c in
  exists product,
    domain.NewProduct now uuid name description price = Return product /\
    domain.ID product = uuid /\
    fst out = Fail dynamodb.missing_key /\
    dynamodb.table (snd out) = dynamodb.table c /\
    dynamodb.log (snd out)
    = dynamodb.log c ++ [dynamodb.OpPutItem (dynamodb.MarshalMap product)] /\
    forall id,
      fst (services.Get productService id (snd out))
      = fst (services.Get productService id c).
Proof.
  intros Hok Hname Hprice out. subst out.
  rewrite (Create_answer now uuid name description price c Hok Hname Hprice).
  eexists. cbn [fst snd dynamodb.log dynamodb.table dynamodb.sent].
  split.
  { unfold domain.NewProduct.
    apply String.eqb_neq in Hname. apply Qltb_ge in Hprice.
    rewrite Hname, Hprice. reflexivity. }
  split; [reflexivity|]. split; [reflexivity|]. split; [reflexivity|].
  split; [reflexivity|].
  intros id. unfold services.Get, productService.
  cbn [repository.as_port ports.GetByID].
  rewrite !GetByID_answer by exact Hok. reflexivity.
Qed.

Lemma Create_then_Get_witness :
  dynamodb.fault samples.store_AB = None /\
  "Lamp" <> "" /\ (0 <= 0)%Q /\
  fst (services.Create productService 7000 "uuid-1" "Lamp" "desk lamp" 0
         samples.store_AB) = Fail dynamodb.missing_key /\
  fst (services.Get productService "uuid-1"
         (snd (services.Create productService 7000 "uuid-1" "Lamp"
                 "desk lamp" 0 samples.store_AB)))
  = Fail domain.ErrNotFound.
Proof.
  assert (H1 : dynamodb.fault samples.store_AB = None) by reflexivity.
  assert (H2 : "Lamp" <> "") by discriminate.
  assert (H3 : (0 <= 0)%Q) by discriminate.
  split; [exact H1|]. split; [exact H2|]. split; [exact H3|].
  destruct (Create_then_Get 7000 "uuid-1" "Lamp" "desk lamp" 0
              samples.store_AB H1 H2 H3)
    as (product & _ & _ & Hrun & _ & _ & Hget).
  split; [exact Hrun|].
  rewrite Hget. reflexivity.
Defined.

(** ** The single-record handlers *)

Lemma validate_create_nil (req : handler_crud.CreateProductRequest) :
  handler_crud.validate req = [] <->
  handler_crud.Name req <> "" /\ (0 < handler_crud.Price req)%Q.
Proof.
  unfold handler_crud.validate. cbn.
  destruct (String.eqb (handler_crud.Name req) "") eqn:Hname; cbn.
  - apply String.eqb_eq in Hname. split; [discriminate|].
    intros [H _]. contradiction.
  - apply String.eqb_neq in Hname.
    destruct (Qltb 0 (handler_crud.Price req)) eqn:Hgt.
    + rewrite (Qltb_zero_not_eq _ Hgt). cbn.
      apply Qltb_lt in Hgt. split; auto.
    + assert (Hno : ~ (0 < handler_crud.Price req)%Q).
      { intros H. apply Qltb_lt in H. congruence. }
      destruct (Qeq_bool (handler_crud.Price req) 0); cbn;
        (split; [discriminate | intros [_ H]; contradiction]).
Qed.

Lemma ShouldBindJSON_Return (body : handler_crud.JSONBody)
    (req : handler_crud.CreateProductRequest) :
  handler_crud.ShouldBindJSON body = Return req <->
  body = handler_crud.Decoded req /\
  handler_crud.Name req <> "" /\ (0 < handler_crud.Price req)%Q.
Proof.
  unfold handler_crud.ShouldBindJSON. destruct body as [err|req'].
  - split; [discriminate | intros [H _]; discriminate].
  - destruct (handler_crud.validate req') eqn:Hv.
    + apply validate_create_nil in Hv. split.
      * intros [= ->]. auto.
      * intros [[= ->] _]. reflexivity.
    + split; [discriminate|]. intros [[= ->] Hok].
      apply validate_create_nil in Hok. congruence.
Qed.

Lemma ShouldBindJSON_cases (body : handler_crud.JSONBody) :
  (exists req, handler_crud.ShouldBindJSON body = Return req) \/
  (exists err, handler_crud.ShouldBindJSON body = Fail err).
Proof.
  unfold handler_crud.ShouldBindJSON. destruct body as [err|req]; [eauto|].
  destruct (handler_crud.validate req); eauto.
Qed.

(** X21.  On an answering store no create request is answered 201.  A
    body that decodes to a non-empty name and a price above zero passes
    the binding (a price of zero, which the domain factory would
    accept, does not) and is answered 500 "internal server error",
    after the one put request the store refused; the table is as it
    was.  Every other request is answered 400 and sends the store
    nothing. *)
Theorem create_product_bound_or_refused (now : Z) (uuid : string)
    (body : handler_crud.JSONBody) (c : dynamodb.Client) :
  dynamodb.fault c = None ->
  ((exists req, body = handler_crud.Decoded req /\
                handler_crud.Name req <> "" /\
                (0 < handler_crud.Price req)%Q) ->
   fst (create_product now uuid body c) = handler_crud.internal_error /\
   dynamodb.table (snd (create_product now uuid body c)) = dynamodb.table c /\
   length (dynamodb.log (snd (create_product now uuid body c)))
   = Datatypes.S (length (dynamodb.log c))) /\
  (~ (exists req, body = handler_crud.Decoded req /\
                  handler_crud.Name req <> "" /\
                  (0 < handler_crud.Price req)%Q) ->
   handler_crud.Status (fst (create_product now uuid body c))
   = handler_crud.StatusBadRequest /\
   snd (create_product now uuid body c) = c) /\
  handler_crud.Status (fst (create_product now uuid body c))
  <> handler_crud.StatusCreated.
Proof.
  intros Hok. unfold create_product, handler_crud.Create.
  destruct (ShouldBindJSON_cases body) as [[req Hreq]|[err Herr]].
  - rewrite Hreq.
    pose proof (proj1 (ShouldBindJSON_Return body req) Hreq)
      as (Hbody & Hname & Hprice).
    rewrite (Create_answer now uuid _ (handler_crud.Description req) _ c
               Hok Hname (Qlt_le_weak _ _ Hprice)).
    change (String.eqb dynamodb.missing_key domain.ErrInvalidProduct)
      with false.
    cbn [fst snd handler_crud.Status dynamodb.sent dynamodb.table
         dynamodb.log].
    split; [|split].
    + intros _. split; [reflexivity|]. split; [reflexivity|].
      rewrite length_app. cbn. lia.
    + intros Hno. exfalso. apply Hno. eauto.
    + discriminate.
  - rewrite Herr. cbn [fst snd handler_crud.Status]. split; [|split].
    + intros (req & Hbody & Hname & Hprice).
      pose proof (proj2 (ShouldBindJSON_Return body req)
                    (conj Hbody (conj Hname Hprice))) as Hret.
      congruence.
    + intros _. split; reflexivity.
    + discriminate.
Qed.

Lemma create_product_bound_or_refused_witness :
  dynamodb.fault samples.store_AB = None /\
  fst (create_product 7000 "uuid-1" samples.body_lamp samples.store_AB)
  = handler_crud.internal_error.
Proof.
  assert (H : dynamodb.fault samples.store_AB = None) by reflexivity.
  split; [exact H|].
  apply (proj1 (create_product_bound_or_refused 7000 "uuid-1"
                  samples.body_lamp samples.store_AB H)).
  eexists. split; [reflexivity|]. split; [discriminate | reflexivity].
Defined.

(** X22.  On an answering store, reading an id is answered 200 with the
    item of the table that has the id, and 404 "product not found" when
    none has it. *)
Theorem get_product_answers (id : string) (c : dynamodb.Client) :
  dynamodb.fault c = None ->
  fst (get_product id c)
  = match spec.item_with id (dynamodb.table c) with
    | Some product =>
        {| handler_crud.Status := handler_crud.StatusOK;
           handler_crud.Payload := handler_crud.ProductBody product |}
    | None =>
        {| handler_crud.Status := handler_crud.StatusNotFound;
           handler_crud.Payload := handler_crud.ErrorBody "product not found" |}
    end.
Proof.
  intros Hok. unfold get_product, handler_crud.Get, services.Get, productService.
  cbn [repository.as_port ports.GetByID].
  rewrite (GetByID_answer id c Hok).
  destruct (spec.item_with id (dynamodb.table c)); reflexivity.
Qed.

Lemma get_product_answers_witness :
  dynamodb.fault samples.store_AB = None /\
  fst (get_product "no-such-id" samples.store_AB)
  = {| handler_crud.Status := handler_crud.StatusNotFound;
       handler_crud.Payload := handler_crud.ErrorBody "product not found" |}.
Proof.
  assert (H : dynamodb.fault samples.store_AB = None) by reflexivity.
  split; [exact H|].
  rewrite (get_product_answers "no-such-id" samples.store_AB H). reflexivity.
Defined.

(** X23.  On an answering store, deleting an id is always answered 204
    without a body, also when no item has the id: with this repository
    the handler's 404 branch is not reached. *)
Theorem delete_product_always_no_content (id : string) (c : dynamodb.Client) :
  dynamodb.fault c = None ->
  fst (delete_product id c)
  = {| handler_crud.Status := handler_crud.StatusNoContent;
       handler_crud.Payload := handler_crud.NoBody |}.
Proof.
  intros Hok. unfold delete_product, handler_crud.Delete, services.Delete,
    productService.
  cbn [repository.as_port ports.Delete].
  rewrite (Delete_answer id c Hok). reflexivity.
Qed.

Lemma delete_product_always_no_content_witness :
  dynamodb.fault samples.store_AB = None /\
  fst (delete_product "no-such-id" samples.store_AB)
  = {| handler_crud.Status := handler_crud.StatusNoContent;
       handler_crud.Payload := handler_crud.NoBody |}.
Proof.
  assert (H : dynamodb.fault samples.store_AB = None) by reflexivity.
  split; [exact H|].
  exact (delete_product_always_no_content "no-such-id" samples.store_AB H).
Defined.

Lemma Forall_remove (P : domain.Product -> Prop) (f : domain.Product -> bool)
    (items : list domain.Product) :
  Forall P items -> Forall P (List.filter f items).
Proof.
  intros Hall. induction Hall as [|q items Hq Hall IH]; cbn; [constructor|].
  destruct (f q); [constructor; assumption | exact IH].
Qed.

Lemma Save_table (P : domain.Product -> Prop) (p : domain.Product)
    (c : dynamodb.Client) :
  P p -> Forall P (dynamodb.table c) ->
  Forall P (dynamodb.table (snd (repository.Save p c))).
Proof.
  intros _ Hall. rewrite Save_keeps_table. exact Hall.
Qed.

(** What a create request stores, if anything, is the product built
    from a body that passed the binding. *)
Lemma create_product_table (P : domain.Product -> Prop) (now : Z)
    (uuid : string) (body : handler_crud.JSONBody) (c : dynamodb.Client) :
  Forall P (dynamodb.table c) ->
  (forall req,
      body = handler_crud.Decoded req ->
      handler_crud.Name req <> "" -> (0 < handler_crud.Price req)%Q ->
      P {| domain.ID := uuid;
           domain.Name := handler_crud.Name req;
           domain.Description := handler_crud.Description req;
           domain.Price := handler_crud.Price req;
           domain.CreatedAt := now;
           domain.UpdatedAt := now |}) ->
  Forall P (dynamodb.table (snd (create_product now uuid body c))).
Proof.
  intros Hall Hnew. unfold create_product, handler_crud.Create.
  destruct (ShouldBindJSON_cases body) as [[req Hreq]|[err Herr]];
    [|rewrite Herr; exact Hall].
  rewrite Hreq.
  pose proof (proj1 (ShouldBindJSON_Return body req) Hreq)
    as (Hbody & Hname & Hprice).
  unfold services.Create, domain.NewProduct, productService.
  rewrite (proj2 (String.eqb_neq _ _) Hname).
  rewrite (proj2 (Qltb_ge _ _) (Qlt_le_weak _ _ Hprice)).
  cbn [repository.as_port ports.Save].
  match goal with
  | |- context [repository.Save ?p c] =>
      pose proof (Save_table P p c (Hnew req Hbody Hname Hprice) Hall)
        as Hsaved;
      destruct (repository.Save p c) as [[u|e|m] c']
  end; cbn [snd] in Hsaved |- *; try exact Hsaved.
  destruct (String.eqb e domain.ErrInvalidProduct); exact Hsaved.
Qed.

(** What an update request stores, if anything, is an item of the table
    with its name, description and price replaced from a body that
    passed the binding and its update time set to the clock read. *)
Lemma update_product_table (P : domain.Product -> Prop) (now : Z)
    (id : string) (body : handler_crud.JSONBody) (c : dynamodb.Client) :
  Forall P (dynamodb.table c) ->
  (forall req existing,
      body = handler_crud.Decoded req ->
      handler_crud.Name req <> "" -> (0 < handler_crud.Price req)%Q ->
      In existing (dynamodb.table c) ->
      P {| domain.ID := domain.ID existing;
           domain.Name := handler_crud.Name req;
           domain.Description := handler_crud.Description req;
           domain.Price := handler_crud.Price req;
           domain.CreatedAt := domain.CreatedAt existing;
           domain.UpdatedAt := now |}) ->
  Forall P (dynamodb.table (snd (update_product now id body c))).
Proof.
  intros Hall Hnew. unfold update_product, handler_crud.Update.
  destruct (ShouldBindJSON_cases body) as [[req Hreq]|[err Herr]];
    [|rewrite Herr; exact Hall].
  rewrite Hreq.
  pose proof (proj1 (ShouldBindJSON_Return body req) Hreq)
    as (Hbody & Hname & Hprice).
  unfold services.Update, productService.
  cbn [repository.as_port ports.GetByID ports.Update].
  unfold repository.GetByID, dynamodb.GetItem.
  destruct (dynamodb.fault c) as [e|] eqn:Hf.
  - cbn. destruct (String.eqb e domain.ErrNotFound); exact Hall.
  - destruct (List.find _ (dynamodb.table c)) as [existing|] eqn:Hfind;
      [|cbn; exact Hall].
    apply List.find_some in Hfind as [Hin _].
    unfold repository.Update.
    match goal with
    | |- context [repository.Save ?p ?c1] =>
        pose proof (Save_table P p c1
                      (Hnew req existing Hbody Hname Hprice Hin) Hall)
          as Hsaved;
        destruct (repository.Save p c1) as [[u|e|m] c']
    end; cbn [snd] in Hsaved |- *; try exact Hsaved.
    destruct (String.eqb e domain.ErrNotFound); exact Hsaved.
Qed.

Lemma delete_product_table (P : domain.Product -> Prop) (id : string)
    (c : dynamodb.Client) :
  Forall P (dynamodb.table c) ->
  Forall P (dynamodb.table (snd (delete_product id c))).
Proof.
  intros Hall.
  unfold delete_product, handler_crud.Delete, services.Delete, productService.
  cbn [repository.as_port ports.Delete].
  unfold repository.Delete, dynamodb.DeleteItem.
  destruct (dynamodb.fault c) as [e|]; cbn.
  - destruct (String.eqb e domain.ErrNotFound); exact Hall.
  - apply Forall_remove. exact Hall.
Qed.

(** X24.  The three writing routes keep the table well formed: if every
    stored product has a non-empty name and a price above zero, so has
    every stored product after a create, an update or a delete request,
    whatever the body and whether or not the store answers.  (The
    service's [Update] alone would hand any name and price to the
    repository; the binding of the handler refuses them, and the store
    refuses the put request of the repository.) *)
Theorem http_writes_keep_the_table_well_formed (now : Z) (uuid id : string)
    (body : handler_crud.JSONBody) (c : dynamodb.Client) :
  Forall spec.well_formed (dynamodb.table c) ->
  Forall spec.well_formed
    (dynamodb.table (snd (create_product now uuid body c))) /\
  Forall spec.well_formed
    (dynamodb.table (snd (update_product now id body c))) /\
  Forall spec.well_formed
    (dynamodb.table (snd (delete_product id c))).
Proof.
  intros Hall. split; [|split].
  - apply create_product_table; [exact Hall|].
    intros req _ Hname Hprice. split; assumption.
  - apply update_product_table; [exact Hall|].
    intros req existing _ Hname Hprice _. split; assumption.
  - apply delete_product_table. exact Hall.
Qed.

Lemma http_writes_keep_the_table_well_formed_witness :
  Forall spec.well_formed (dynamodb.table samples.store_AB) /\
  Forall spec.well_formed
    (dynamodb.table
       (snd (create_product 7000 "uuid-1" samples.body_lamp samples.store_AB))).
Proof.
  assert (H : Forall spec.well_formed (dynamodb.table samples.store_AB)).
  { repeat constructor; discriminate. }
  split; [exact H|].
  exact (proj1 (http_writes_keep_the_table_well_formed 7000 "uuid-1" "1"
                  samples.body_lamp samples.store_AB H)).
Defined.

(** X25.  If no stored product is updated before it was created, and
    the clock read of the request is not before the creation time of any
    stored product, the same holds after a create, an update or a delete
    request. *)
Theorem http_writes_keep_times_ordered (now : Z) (uuid id : string)
    (body : handler_crud.JSONBody) (c : dynamodb.Client) :
  Forall spec.ordered_times (dynamodb.table c) ->
  Forall (fun p => (domain.CreatedAt p <= now)%Z) (dynamodb.table c) ->
  Forall spec.ordered_times
    (dynamodb.table (snd (create_product now uuid body c))) /\
  Forall spec.ordered_times
    (dynamodb.table (snd (update_product now id body c))) /\
  Forall spec.ordered_times
    (dynamodb.table (snd (delete_product id c))).
Proof.
  intros Hall Hclock. split; [|split].
  - apply create_product_table; [exact Hall|].
    intros req _ _ _. unfold spec.ordered_times. cbn. lia.
  - apply update_product_table; [exact Hall|].
    intros req existing _ _ _ Hin. unfold spec.ordered_times. cbn.
    rewrite List.Forall_forall in Hclock. exact (Hclock existing Hin).
  - apply delete_product_table. exact Hall.
Qed.

Lemma http_writes_keep_times_ordered_witness :
  Forall spec.ordered_times (dynamodb.table samples.store_AB) /\
  Forall (fun p => (domain.CreatedAt p <= 9000)%Z)
    (dynamodb.table samples.store_AB) /\
  Forall spec.ordered_times
    (dynamodb.table
       (snd (update_product 9000 "1" samples.body_lamp samples.store_AB))).
Proof.
  assert (H1 : Forall spec.ordered_times (dynamodb.table samples.store_AB)).
  { repeat constructor; unfold spec.ordered_times; cbn; lia. }
  assert (H2 : Forall (fun p => (domain.CreatedAt p <= 9000)%Z)
                 (dynamodb.table samples.store_AB)).
  { repeat constructor; cbn; lia. }
  split; [exact H1|]. split; [exact H2|].
  exact (proj1 (proj2 (http_writes_keep_times_ordered 9000 "uuid-1" "1"
                         samples.body_lamp samples.store_AB H1 H2))).
Defined.

(** From 2^53 on, the conversion of the total to [float64] rounds it:
    2^53 + 1 items on pages of one item are counted as 2^53 pages, and
    a total that rounds to 2^63 leaves the range of [int], so that the
    first page has a next page and yet is not below total_pages. *)
Lemma total_pages_of_a_rounded_total :
  handler.total_pages (2 ^ 53 + 1) 1 = (2 ^ 53)%Z /\
  handler.total_pages (2 ^ 63 - 1) 1 = (- 2 ^ 63)%Z /\
  dto.HasNext
    (handler.pagination_of (samples.bound_request 1 1 0 0)
       {| ports.Products := []; ports.TotalItems := 2 ^ 63 - 1 |}) = true.
Proof. repeat split; vm_compute; reflexivity. Qed.

(** X26.  In the pagination block of a list response with a page size
    of at least 1 and a total from 0 up to 2^53, has_next is true
    exactly when the current page is below total_pages, and
    total_pages is zero exactly when there are no items. *)
Theorem has_next_iff_below_total_pages (req : dto.ListProductsRequest)
    (result : ports.ProductListResult) :
  (1 <= dto.Limit req < 2 ^ 53)%Z ->
  (0 <= ports.TotalItems result < 2 ^ 53)%Z ->
  let p := handler.pagination_of req result in
  (dto.HasNext p = true <-> (dto.CurrentPage p < dto.TotalPages p)%Z) /\
  (dto.TotalPages p = 0%Z <-> dto.TotalItems p = 0%Z).
Proof.
  intros Hl Ht p. subst p. unfold handler.pagination_of.
  cbn [dto.HasNext dto.CurrentPage dto.TotalPages dto.TotalItems].
  pose proof (handler_facts.total_pages_spec (ports.TotalItems result)
                (dto.Limit req) Ht Hl) as Hceil.
  rewrite Z.ltb_lt. split; split; intros H; nia.
Qed.

Lemma has_next_iff_below_total_pages_witness :
  (1 <= dto.Limit (samples.bound_request 2 10 0 0) < 2 ^ 53)%Z /\
  (0 <= ports.TotalItems {| ports.Products := []; ports.TotalItems := 50 |}
   < 2 ^ 53)%Z /\
  (dto.HasNext
     (handler.pagination_of (samples.bound_request 2 10 0 0)
        {| ports.Products := []; ports.TotalItems := 50 |}) = true <->
   (dto.CurrentPage
      (handler.pagination_of (samples.bound_request 2 10 0 0)
         {| ports.Products := []; ports.TotalItems := 50 |})
    < dto.TotalPages
        (handler.pagination_of (samples.bound_request 2 10 0 0)
           {| ports.Products := []; ports.TotalItems := 50 |}))%Z).
Proof.
  assert (H1 : (1 <= dto.Limit (samples.bound_request 2 10 0 0) < 2 ^ 53)%Z)
    by (simpl; lia).
  assert (H2 : (0 <= ports.TotalItems
                      {| ports.Products := []; ports.TotalItems := 50 |}
                < 2 ^ 53)%Z)
    by (simpl; lia).
  split; [exact H1|]. split; [exact H2|].
  exact (proj1 (has_next_iff_below_total_pages (samples.bound_request 2 10 0 0)
                  {| ports.Products := []; ports.TotalItems := 50 |} H1 H2)).
Defined.

Lemma In_oneof (v : string) (allowed : list string) :
  In v allowed -> binding.oneof v allowed = true.
Proof.
  intros H. unfold binding.oneof. apply existsb_exists.
  exists v. split; [exact H | apply String.eqb_refl].
Qed.

Lemma validate_of_bound r : spec.bound r -> binding.validate r = [].
Proof.
  intros [Hp [Hl1 Hl2] Hmin Hmax Hby Horder]. unfold binding.validate.
  cbn [binding.run_tags].
  rewrite (proj2 (Z.leb_le _ _) Hp), (proj2 (Z.leb_le _ _) Hl1),
    (proj2 (Z.leb_le _ _) Hl2).
  rewrite (proj2 (Qle_bool_iff _ _) Hmin), (proj2 (Qle_bool_iff _ _) Hmax).
  unfold binding.omitempty.
  destruct Hby as [->|Hby]; destruct Horder as [->|Horder];
    cbn [String.eqb]; rewrite ?Hby, ?Horder;
    repeat match goal with
           | |- context [String.eqb ?a ""] => destruct (String.eqb a "")
           end; reflexivity.
Qed.

Lemma set_field_value {A : Type} (zero : A) (p : binding.Param A) (v : A) :
  binding.set_field zero p = Return v <-> spec.param_value zero p = Some v.
Proof.
  destruct p; cbn; split; intros H; try discriminate;
    injection H as <-; reflexivity.
Qed.

(** X27.  The list handler answers 400 exactly to the requests that are
    not [accepted]: every other request reaches the service, whatever
    the service is. *)
Theorem List_refuses_exactly_the_unaccepted {S : Type}
    (svc : ports.ProductFilters -> S -> go ports.ProductListResult * S)
    (q : binding.Query) (st : S) :
  handler.Status (fst (handler.List svc q st)) <> handler.StatusBadRequest
  <-> spec.accepted q.
Proof.
  unfold handler.List. split.
  - destruct (binding.ShouldBindQuery q) as [r|e|m] eqn:Hbind;
      [|intros H; exfalso; apply H; reflexivity
       |exfalso; exact (ShouldBindQuery_no_panic q m Hbind)].
    cbn zeta.
    apply handler_facts.ShouldBindQuery_inv in Hbind as [Hmap Hb].
    destruct (handler_facts.SetDefaults_bound r Hb) as [HP _].
    destruct (1000 <? dto.Page (dto.SetDefaults r))%Z eqn:Hpage;
      [intros H; exfalso; apply H; reflexivity|].
    destruct (Qltb 0 (dto.MinPrice (dto.SetDefaults r))
              && Qltb 0 (dto.MaxPrice (dto.SetDefaults r))
              && Qltb (dto.MaxPrice (dto.SetDefaults r))
                      (dto.MinPrice (dto.SetDefaults r))) eqn:Hrange;
      [intros H; exfalso; apply H; reflexivity|].
    intros _. apply Z.ltb_ge in Hpage. rewrite HP in Hpage.
    pose proof (proj1 (range_check _ _) Hrange) as Hordered.
    cbn in Hordered. clear Hrange.
    apply handler_facts.mapForm_inv in Hmap
      as (Hpg & Hlm & Hlo & Hhi & _ & Hby & Hord & _).
    destruct Hb as [Hp Hl Hmin Hmax Hsb Hso].
    exists (dto.Page r), (dto.Limit r), (dto.MinPrice r), (dto.MaxPrice r).
    assert (Hpage_given : binding.page q = binding.Parsed (dto.Page r)).
    { destruct (binding.page q) as [|n|err]; cbn in Hpg; try discriminate.
      - injection Hpg as Hpg. lia.
      - injection Hpg as ->. reflexivity. }
    assert (Hlimit_given : binding.limit q = binding.Parsed (dto.Limit r)).
    { destruct (binding.limit q) as [|n|err]; cbn in Hlm; try discriminate.
      - injection Hlm as Hlm. lia.
      - injection Hlm as ->. reflexivity. }
    rewrite <- Hby, <- Hord.
    refine (conj Hpage_given (conj _ (conj Hlimit_given (conj _
             (conj _ (conj Hmin (conj _ (conj Hmax (conj Hordered
                (conj _ _)))))))))).
    + lia.
    + lia.
    + apply set_field_value. exact Hlo.
    + apply set_field_value. exact Hhi.
    + destruct Hsb as [H|H]; [left; exact H | right; apply oneof_In; exact H].
    + destruct Hso as [H|H]; [left; exact H | right; apply oneof_In; exact H].
  - intros (page & limit & lo & hi & Hpg & Hpage & Hlm & Hlimit
            & Hlo & Hlo0 & Hhi & Hhi0 & Hrange & Hby & Hord).
    pose (r := {| dto.Page := page; dto.Limit := limit;
                  dto.Name := binding.set_string (binding.name q);
                  dto.MinPrice := lo; dto.MaxPrice := hi;
                  dto.SortBy := binding.set_string (binding.sort_by q);
                  dto.SortOrder := binding.set_string (binding.sort_order q);
                  dto.Fields := binding.set_string (binding.fields q) |}).
    assert (Hb : spec.bound r).
    { constructor; cbn; try assumption; try lia.
      - destruct Hby as [H|H];
          [left; exact H | right; exact (In_oneof _ _ H)].
      - destruct Hord as [H|H];
          [left; exact H | right; exact (In_oneof _ _ H)]. }
    assert (Hbind : binding.ShouldBindQuery q = Return r).
    { unfold binding.ShouldBindQuery, binding.mapForm.
      rewrite Hpg, Hlm. cbn [binding.set_field go_bind].
      rewrite (proj2 (set_field_value _ _ _) Hlo),
        (proj2 (set_field_value _ _ _) Hhi).
      cbn [go_bind]. fold r. rewrite (validate_of_bound r Hb). reflexivity. }
    rewrite Hbind. cbn zeta.
    destruct (handler_facts.SetDefaults_bound r Hb) as [HP _].
    rewrite HP. cbn [dto.Page r].
    replace (1000 <? page)%Z with false by (symmetry; apply Z.ltb_ge; lia).
    replace (Qltb 0 (dto.MinPrice (dto.SetDefaults r))
             && Qltb 0 (dto.MaxPrice (dto.SetDefaults r))
             && Qltb (dto.MaxPrice (dto.SetDefaults r))
                     (dto.MinPrice (dto.SetDefaults r))) with false
      by (symmetry; apply range_check; exact Hrange).
    destruct (svc (handler.filters_of (dto.SetDefaults r)) st)
      as [[result|err|msg] st']; cbn; discriminate.
Qed.

Lemma List_refuses_exactly_the_unaccepted_witness :
  spec.accepted samples.query_first_page /\
  handler.Status (fst (list_products samples.query_first_page samples.store_AB))
  <> handler.StatusBadRequest.
Proof.
  assert (H : spec.accepted samples.query_first_page).
  { exists 1%Z, 20%Z, 0%Q, 0%Q. cbn.
    repeat split; try reflexivity; try lia; try discriminate; auto. }
  split; [exact H|].
  exact (proj2 (List_refuses_exactly_the_unaccepted
                  (services.ListWithFilters (repository.as_port productRepo))
                  samples.query_first_page samples.store_AB) H).
Defined.

Lemma echo_empty_iff_no_filter_expression_witness :
  dynamodb.FilterExpression
    (repository.scanInput productRepo
       (handler.filters_of (samples.bound_request 1 20 0 0))) = None /\
  dto.FilterInfo_json
    (dto.FiltersApplied
       (handler.response_of (samples.bound_request 1 20 0 0)
          {| ports.Products := []; ports.TotalItems := 0 |})) = [].
Proof.
  assert (H : dynamodb.FilterExpression
                (repository.scanInput productRepo
                   (handler.filters_of (samples.bound_request 1 20 0 0))) = None)
    by reflexivity.
  split; [exact H|].
  exact (proj2 (echo_empty_iff_no_filter_expression productRepo
                  (samples.bound_request 1 20 0 0)
                  {| ports.Products := []; ports.TotalItems := 0 |}) H).
Defined.
